(** * A shallow embedding of the PostgreSQL tool server [main.py]

    The server exposes a fixed catalog of operations over a DVD-rental
    database.  Each operation opens a connection, runs one or two SQL
    statements through a cursor and returns rows or a status string.

    The embedding has four layers:
    - [PyStr]: the Python string methods the source calls
      ([strip], [lower], [startswith], [rstrip], formatting of integers);
    - the database: the tables the statements mention, as lists of records,
      with the [ILIKE] pattern matcher, sorting and grouping;
    - the driver: a state-and-exception monad over a [world] holding the
      committed database, the pending transaction, the number of live
      connections and a journal of driver calls;
    - the catalog: the nine operations, written statement by statement as in
      the source, each SQL statement next to its meaning over the tables. *)

From Stdlib Require Import String Ascii List ZArith Lia Bool Arith Permutation.
From Stdlib Require Import DecimalString DecimalZ DecimalPos.
Import ListNotations.
Open Scope string_scope.
Open Scope nat_scope.

(** ** Python strings

    A Python [str] is modelled as a [string] whose characters are the code
    points below 256. *)
Module PyStr.

Definition code (c : ascii) : nat := nat_of_ascii c.

(** [str.isspace] on one character: TAB, LF, VT, FF, CR, the four
    separators FS, GS, RS, US, the blank, NEL and the no-break space. *)
Definition isspace (c : ascii) : bool :=
  let n := code c in
  ((9 <=? n) && (n <=? 13)) || ((28 <=? n) && (n <=? 32))
  || (n =? 133) || (n =? 160).

(** [str.lower] on one character: A-Z and the upper-case letters of the
    Latin-1 block (all of 192..222 but the multiplication sign 215). *)
Definition lower_char (c : ascii) : ascii :=
  let n := code c in
  if ((65 <=? n) && (n <=? 90))
     || ((192 <=? n) && (n <=? 222) && negb (n =? 215))
  then ascii_of_nat (n + 32) else c.

Fixpoint lower (s : string) : string :=
  match s with
  | EmptyString => EmptyString
  | String c s' => String (lower_char c) (lower s')
  end.

(** [s.lstrip(chars)], with the character set given as a predicate. *)
Fixpoint lstrip_by (f : ascii -> bool) (s : string) : string :=
  match s with
  | EmptyString => EmptyString
  | String c s' => if f c then lstrip_by f s' else s
  end.

(** [s.rstrip(chars)]: the longest suffix made of characters of the set is
    dropped. *)
Fixpoint rstrip_by (f : ascii -> bool) (s : string) : string :=
  match s with
  | EmptyString => EmptyString
  | String c s' =>
      match rstrip_by f s' with
      | EmptyString => if f c then EmptyString else String c EmptyString
      | r => String c r
      end
  end.

(** [s.strip()] *)
Definition strip (s : string) : string := rstrip_by isspace (lstrip_by isspace s).

(** [s.rstrip(';')] *)
Definition is_semicolon (c : ascii) : bool := Ascii.eqb c ";"%char.
Definition rstrip_semicolon (s : string) : string := rstrip_by is_semicolon s.

(** [s.startswith(p)] *)
Fixpoint startswith (p s : string) : bool :=
  match p, s with
  | EmptyString, _ => true
  | String a p', String b s' => Ascii.eqb a b && startswith p' s'
  | String _ _, EmptyString => false
  end.

(** [str(n)] for an [int], as the f-strings of the source render it. *)
Definition str_of_int (n : Z) : string := NilZero.string_of_int (Z.to_int n).

(** The number a decimal text stands for, to read back what [str_of_int]
    has written; the source does not call it. *)
Definition int_of_str (s : string) : option Z :=
  option_map Z.of_int (NilZero.int_of_string s).

(** [p in s] *)
Fixpoint contains (p s : string) : bool :=
  startswith p s ||
  match s with
  | EmptyString => false
  | String _ s' => contains p s'
  end.

(** [s.count(p)] without the non-overlap rule: the number of positions of
    [s] at which [p] starts. *)
Fixpoint occurrences (p s : string) : nat :=
  (if startswith p s then 1 else 0) +
  match s with
  | EmptyString => 0
  | String _ s' => occurrences p s'
  end.

(** [s.endswith(p)] *)
Fixpoint endswith (p s : string) : bool :=
  String.eqb p s ||
  match s with
  | EmptyString => false
  | String _ s' => endswith p s'
  end.

End PyStr.

(** ** The database

    The schema is not part of the source; the tables carry the columns the
    statements of the source mention.  Every column is taken as NOT NULL
    except [return_date], the only one the source tests for NULL.  Timestamps
    are integers (a count of microseconds). *)

Record film_row := {
  f_film_id : Z; f_title : string; f_description : string;
  f_release_year : Z; f_rental_rate : Z; f_rating : string }.

Record category_row := { c_category_id : Z; c_name : string }.

Record film_category_row := { fc_film_id : Z; fc_category_id : Z }.

Record inventory_row := { i_inventory_id : Z; i_film_id : Z; i_store_id : Z }.

Record rental_row := {
  r_rental_id : Z; r_rental_date : Z; r_inventory_id : Z;
  r_customer_id : Z; r_staff_id : Z; r_return_date : option Z }.

(** Amounts are in hundredths. *)
Record payment_row := { p_rental_id : Z; p_staff_id : Z; p_amount : Z }.

Record staff_row := { s_staff_id : Z; s_store_id : Z }.

(** A row of [information_schema.columns]. *)
Record column_row := {
  col_table_schema : string; col_table_name : string; col_column_name : string;
  col_data_type : string; col_is_nullable : string; col_ordinal_position : Z }.

(** [rental_id_seq] is the sequence behind the default of [rental.rental_id];
    [tables] stands for [information_schema.tables] as (schema, name). *)
Record database := {
  film : list film_row;
  category : list category_row;
  film_category : list film_category_row;
  inventory : list inventory_row;
  rental : list rental_row;
  rental_id_seq : Z;
  payment : list payment_row;
  staff : list staff_row;
  tables : list (string * string);
  columns : list column_row }.

Definition with_rental (d : database) (rs : list rental_row) (seq : Z) : database :=
  {| film := film d; category := category d; film_category := film_category d;
     inventory := inventory d; rental := rs; rental_id_seq := seq;
     payment := payment d; staff := staff d;
     tables := tables d; columns := columns d |}.

Definition with_sequence (d : database) (seq : Z) : database :=
  with_rental d (rental d) seq.

(** Values bound to the [%s] placeholders, and values of fetched fields. *)
Inductive pyval :=
| VInt (n : Z)
| VStr (s : string)
| VNone.

(** A row of a [RealDictCursor]: named fields in column order. *)
Definition dict := list (string * pyval).

(** ** The server, the driver and the operations

    What the source leaves to the database is taken as given: the case
    folding and the collation of its locale, what the declaration of the
    rental table lets in, and what the server does with a free-form
    statement. *)

Section Catalog.

Set Default Proof Using "Type".

(** *** [LIKE] and [ILIKE]

    [%] matches any run of characters, [_] any one character, a backslash
    takes the next pattern character literally.  A pattern that ends in a
    lone backslash matches nothing here (the server reports an error; no
    pattern the source builds ends that way, they all end in [%]).  [ILIKE]
    compares letters with their case folded.  [fold_case] is the lower-casing
    of the locale of the database: for a text and a pattern lower-cased
    throughout, comparing folded characters is comparing characters. *)
Variable fold_case : ascii -> ascii.

Definition same_char (a b : ascii) : bool := Ascii.eqb (fold_case a) (fold_case b).

Definition is_percent (c : ascii) : bool := Ascii.eqb c "%"%char.
Definition is_underscore (c : ascii) : bool := Ascii.eqb c "_"%char.
Definition is_backslash (c : ascii) : bool := Ascii.eqb c "\"%char.

Fixpoint ilike_match (p : string) : string -> bool :=
  match p with
  | EmptyString => fun t => match t with EmptyString => true | _ => false end
  | String a p' =>
      if is_percent a then
        fix any (t : string) : bool :=
          ilike_match p' t ||
          match t with EmptyString => false | String _ t' => any t' end
      else if is_underscore a then
        fun t => match t with EmptyString => false | String _ t' => ilike_match p' t' end
      else if is_backslash a then
        match p' with
        | EmptyString => fun _ => false
        | String b p'' =>
            fun t => match t with
                     | EmptyString => false
                     | String d t' => same_char b d && ilike_match p'' t'
                     end
        end
      else
        fun t => match t with
                 | EmptyString => false
                 | String d t' => same_char a d && ilike_match p' t'
                 end
  end.

(** [text ILIKE pattern] *)
Definition ilike (text pattern : string) : bool := ilike_match pattern text.

(** *** Sorting and limiting *)

Fixpoint insert_by {A : Type} (le : A -> A -> bool) (x : A) (l : list A) : list A :=
  match l with
  | [] => [x]
  | y :: l' => if le x y then x :: l else y :: insert_by le x l'
  end.

(** [ORDER BY]: an insertion sort, which keeps rows with equal keys in their
    order of arrival. *)
Fixpoint sort_by {A : Type} (le : A -> A -> bool) (l : list A) : list A :=
  match l with
  | [] => []
  | x :: l' => insert_by le x (sort_by le l')
  end.

(** [GROUP BY key] with [SUM(value)]: one row for each key, in order of first
    appearance. *)
Fixpoint add_to {K : Type} (same : K -> K -> bool) (k : K) (v : Z) (acc : list (K * Z))
    : list (K * Z) :=
  match acc with
  | [] => [(k, v)]
  | (k', total) :: acc' =>
      if same k k' then (k', (total + v)%Z) :: acc'
      else (k', total) :: add_to same k v acc'
  end.

Definition group_sum {K : Type} (same : K -> K -> bool) (rows : list (K * Z))
    : list (K * Z) :=
  fold_left (fun acc row => add_to same (fst row) (snd row) acc) rows [].

(** ** Exceptions and outcomes *)

Inductive exn :=
| ValueError (msg : string)      (* raised by the source itself *)
| OperationalError               (* [psycopg2.connect] could not connect *)
| DatabaseError                  (* the server rejected a statement *)
| ProgrammingError               (* fetching when there is no result set *)
| TypeError.                     (* subscripting [None] *)

Inductive outcome (A : Type) :=
| Returned (a : A)
| Raised (e : exn).
#[global] Arguments Returned {A} a.
#[global] Arguments Raised {A} e.

(** [LIMIT n]: the count is a 64-bit integer for the server, which rejects a
    negative one and one that does not fit. *)
Definition limit_rows {A : Type} (n : Z) (l : list A) : outcome (list A) :=
  if (n <? 0)%Z || (2 ^ 63 <=? n)%Z then Raised DatabaseError
  else Returned (firstn (Z.to_nat n) l).

(** ** The driver

    What the source calls on psycopg2, over an explicit [world]:
    - [committed]: the database as other sessions see it;
    - [pending]: the view of the transaction in progress, if any (psycopg2
      opens a transaction at the first [execute]);
    - [live]: the connections opened and not closed so far;
    - [journal]: the driver calls the source makes, oldest first;
    - [server_up]: whether [psycopg2.connect] succeeds;
    - [clock]: the value of [NOW()]. *)

Inductive event :=
| EvConnect
| EvCursor
| EvExecute (sql : string) (params : list pyval)
| EvCommit
| EvRollback
| EvCursorClose
| EvClose.

Record world := {
  committed : database;
  pending : option database;
  live : nat;
  journal : list event;
  server_up : bool;
  clock : Z }.

Definition view (w : world) : database :=
  match pending w with
  | Some d => d
  | None => committed w
  end.

Definition log (e : event) (w : world) : world :=
  {| committed := committed w; pending := pending w; live := live w;
     journal := (journal w ++ [e])%list; server_up := server_up w; clock := clock w |}.

Definition set_pending (p : option database) (w : world) : world :=
  {| committed := committed w; pending := p; live := live w;
     journal := journal w; server_up := server_up w; clock := clock w |}.

Definition set_committed (d : database) (w : world) : world :=
  {| committed := d; pending := pending w; live := live w;
     journal := journal w; server_up := server_up w; clock := clock w |}.

Definition set_live (n : nat) (w : world) : world :=
  {| committed := committed w; pending := pending w; live := n;
     journal := journal w; server_up := server_up w; clock := clock w |}.

(** Computations that read and change the world and may raise. *)
Definition M (A : Type) : Type := world -> outcome A * world.

Definition ret {A : Type} (a : A) : M A := fun w => (Returned a, w).

Definition raise {A : Type} (e : exn) : M A := fun w => (Raised e, w).

Definition bind {A B : Type} (m : M A) (k : A -> M B) : M B :=
  fun w =>
    match m w with
    | (Returned a, w') => k a w'
    | (Raised e, w') => (Raised e, w')
    end.

Notation "x <- m ;; k" := (bind m (fun x => k))
  (at level 61, m at next level, right associativity).
Notation "m ;;; k" := (bind m (fun _ => k))
  (at level 61, right associativity).

(** [psycopg2.connect] on the static configuration: a new connection, with
    no transaction in progress. *)
Definition get_connection : M unit :=
  fun w =>
    if server_up w
    then (Returned tt, log EvConnect (set_live (S (live w)) (set_pending None w)))
    else (Raised OperationalError, w).

(** [conn.commit()] *)
Definition commit : M unit :=
  fun w => (Returned tt, log EvCommit (set_pending None (set_committed (view w) w))).

(** [conn.rollback()] *)
Definition rollback : M unit :=
  fun w => (Returned tt, log EvRollback (set_pending None w)).

(** [conn.close()]: pending work is discarded and the connection released.
    The source never calls it. *)
Definition close : M unit :=
  fun w => (Returned tt, log EvClose (set_live (pred (live w)) (set_pending None w))).

(** The connection object is no longer referenced: the interpreter frees it,
    which closes the session.  No call of the source does this. *)
Definition finalize : M unit :=
  fun w => (Returned tt, set_live (pred (live w)) w).

(** [with get_connection() as conn: body], the whole body of each operation.
    Leaving the block of a psycopg2 connection commits when the body ended
    normally and rolls back when it raised; it does not close the
    connection.  The function ends there.  When it returns, [conn] goes out
    of scope and the connection is finalized.  When it raises, the traceback
    of the exception holds the frame, and with it the connection, which
    stays open for as long as the exception is alive. *)
Definition with_connection {A : Type} (body : M A) : M A :=
  get_connection ;;;
  fun w =>
    match body w with
    | (Returned a, w') => (Returned a, snd (finalize (snd (commit w'))))
    | (Raised e, w') => (Raised e, snd (rollback w'))
    end.

(** [with conn.cursor() as cur: body]: the cursor is closed on the way out,
    whatever the body did. *)
Definition with_cursor {A : Type} (body : M A) : M A :=
  fun w =>
    match body (log EvCursor w) with
    | (r, w') => (r, log EvCursorClose w')
    end.

(** What a statement leaves in the cursor: its rows, or nothing when the
    statement has no result set. *)
Definition result_set (A : Type) : Type := option (list A).

(** [cur.execute(sql, params)] for a statement whose meaning is [sem]: given
    [NOW()] and the transaction's view it gives the result and the new view,
    or fails. *)
Definition execute {A : Type} (sql : string) (params : list pyval)
    (sem : Z -> database -> outcome (A * database)) : M A :=
  fun w =>
    let w1 := log (EvExecute sql params) w in
    match sem (clock w) (view w) with
    | Returned (a, d') => (Returned a, set_pending (Some d') w1)
    | Raised e => (Raised e, set_pending (Some (view w)) w1)
    end.

(** [cur.execute(sql, params)] for a statement that takes a value from a
    sequence.  A sequence is not part of the transaction: it does not take
    back a value it gave out.  When the statement fails, [seq] is where it
    has left the sequence, and no rollback undoes that. *)
Definition execute_drawing {A : Type} (sql : string) (params : list pyval)
    (sem : Z -> database -> outcome (A * database)) (seq : Z -> database -> Z) : M A :=
  fun w =>
    let w1 := log (EvExecute sql params) w in
    match sem (clock w) (view w) with
    | Returned (a, d') => (Returned a, set_pending (Some d') w1)
    | Raised e =>
        let k := seq (clock w) (view w) in
        (Raised e, set_pending (Some (with_sequence (view w) k))
                     (set_committed (with_sequence (committed w) k) w1))
    end.

(** A statement that only reads. *)
Definition reading {A : Type} (f : database -> outcome (list A))
    : Z -> database -> outcome (result_set A * database) :=
  fun _ d => match f d with
             | Returned rows => Returned (Some rows, d)
             | Raised e => Raised e
             end.

(** [cur.fetchone()] and [cur.fetchall()] on what the last statement left:
    both raise when it left no result set. *)
Definition fetchone {A : Type} (result : result_set A) : M (option A) :=
  match result with
  | Some rows => ret (hd_error rows)
  | None => raise ProgrammingError
  end.

Definition fetchall {A : Type} (result : result_set A) : M (list A) :=
  match result with
  | Some rows => ret rows
  | None => raise ProgrammingError
  end.

(** ** The operation catalog *)

(** [ORDER BY] on text follows the collation of the database. *)
Variable collate_le : string -> string -> bool.

(** What the server does with a free-form text, which may hold several
    statements and may end the transaction on its own: [reply_of] is what
    the cursor receives (rows, no result set, or an error), [durable] the
    database as committed once the text has run (the one before, unless the
    text commits by itself), [view_after] the view of the transaction
    then. *)
Inductive reply :=
| Rows (rows : list dict)
| NoRows
| Rejected.

Record answer := { reply_of : reply; durable : database; view_after : database }.

Variable server_run : string -> database -> answer.

(** What the declaration of the rental table lets in: the ranges of its
    columns, its keys, the rows it refers to.  The declaration is not part
    of the source. *)
Variable admits : rental_row -> database -> bool.

(** Whether the INSERT of a row that is not admitted had taken the
    identifier of the row from the sequence by the time it failed: that
    depends on what the table refuses. *)
Variable draws : rental_row -> database -> bool.

(** [str(d)] for a fetched timestamp. *)
Variable str_of_datetime : Z -> string.

(** *** [list_tables] *)

Definition sql_list_tables : string :=
  "SELECT table_name FROM information_schema.tables WHERE table_schema = %s ORDER BY table_name".

Definition select_tables (schema : string) (d : database) : outcome (list string) :=
  Returned
    (sort_by collate_le
       (map snd (filter (fun t => String.eqb (fst t) schema) (tables d)))).

Definition list_tables (schema : string) : M (list string) :=
  with_connection (with_cursor (
    result <- execute sql_list_tables [VStr schema] (reading (select_tables schema)) ;;
    fetchall result)).

(** *** [describe_table] *)

Definition sql_describe_table : string :=
  "SELECT column_name, data_type, is_nullable FROM information_schema.columns WHERE table_schema = %s AND table_name = %s ORDER BY ordinal_position".

Record column := { column_name : string; data_type : string; is_nullable : string }.

Definition select_columns (schema table_name : string) (d : database)
    : outcome (list column) :=
  Returned
    (map (fun c => {| column_name := col_column_name c; data_type := col_data_type c;
                      is_nullable := col_is_nullable c |})
       (sort_by (fun a b => (col_ordinal_position a <=? col_ordinal_position b)%Z)
          (filter (fun c => String.eqb (col_table_schema c) schema
                            && String.eqb (col_table_name c) table_name)
             (columns d)))).

Definition describe_table (table_name schema : string) : M (list column) :=
  with_connection (with_cursor (
    result <- execute sql_describe_table [VStr schema; VStr table_name]
                (reading (select_columns schema table_name)) ;;
    fetchall result)).

(** *** [run_select_query] *)

(** [cur.execute(text)] for a free-form text. *)
Definition execute_text (text : string) : M (result_set dict) :=
  fun w =>
    let w1 := log (EvExecute text []) w in
    let a := server_run text (view w) in
    let w2 := set_pending (Some (view_after a)) (set_committed (durable a) w1) in
    match reply_of a with
    | Rows rows => (Returned (Some rows), w2)
    | NoRows => (Returned None, w2)
    | Rejected => (Raised DatabaseError, w2)
    end.

Definition limited_query (query : string) (limit : Z) : string :=
  PyStr.rstrip_semicolon query ++ " LIMIT " ++ PyStr.str_of_int limit.

Definition run_select_query (query : string) (limit : Z) : M (list dict) :=
  if negb (PyStr.startswith "select" (PyStr.lower (PyStr.strip query)))
  then raise (ValueError "Only SELECT queries are allowed")
  else
    with_connection (with_cursor (
      result <- execute_text (limited_query query limit) ;;
      fetchall result)).

(** *** [search_movies] *)

(** A row of the join [film f JOIN film_category fc JOIN category c]. *)
Definition joined : Type := film_row * film_category_row * category_row.

Definition film_join (d : database) : list joined :=
  flat_map (fun f =>
    flat_map (fun fc =>
      if (f_film_id f =? fc_film_id fc)%Z then
        flat_map (fun c =>
          if (fc_category_id fc =? c_category_id c)%Z then [(f, fc, c)] else [])
          (category d)
      else [])
      (film_category d))
    (film d).

(** The result row: the keys of the dictionary the cursor builds. *)
Record movie := {
  film_id : Z; title : string; genre : string; release_year : Z;
  rental_rate : Z; rating : string; description : string }.

Definition movie_of (j : joined) : movie :=
  let '(f, _, c) := j in
  {| film_id := f_film_id f; title := f_title f; genre := c_name c;
     release_year := f_release_year f; rental_rate := f_rental_rate f;
     rating := f_rating f; description := f_description f |}.

(** The conjuncts the source may add after [WHERE 1=1]. *)
Definition title_or_description_ilike (p1 p2 : string) (j : joined) : bool :=
  let '(f, _, _) := j in ilike (f_title f) p1 || ilike (f_description f) p2.

Definition name_ilike (p : string) (j : joined) : bool :=
  let '(_, _, c) := j in ilike (c_name c) p.

Definition release_year_eq (y : Z) (j : joined) : bool :=
  let '(f, _, _) := j in (f_release_year f =? y)%Z.

Definition select_movies (where_ : list (joined -> bool)) (limit : Z) (d : database)
    : outcome (list movie) :=
  limit_rows limit
    (map movie_of
       (sort_by (fun a b => collate_le (f_title (fst (fst a))) (f_title (fst (fst b))))
          (filter (fun j => forallb (fun cond => cond j) where_) (film_join d)))).

Definition sql_search_movies : string :=
  "SELECT f.film_id, f.title, c.name as genre, f.release_year, f.rental_rate, f.rating, f.description FROM film f JOIN film_category fc ON f.film_id = fc.film_id JOIN category c ON fc.category_id = c.category_id WHERE 1=1".

(** Truth values of the optional arguments: [None], the empty string and
    zero are false. *)
Definition truthy_str (s : option string) : option string :=
  match s with
  | Some EmptyString => None
  | other => other
  end.

Definition truthy_int (n : option Z) : option Z :=
  match n with
  | Some 0%Z => None
  | other => other
  end.

(** The statement under construction: its text, its parameters and, next to
    them, the meaning of the conjuncts added so far. *)
Definition building : Type := string * list pyval * list (joined -> bool).

Definition search_movies (search_term genre : option string) (year : option Z)
    (limit : Z) : M (list movie) :=
  let b0 : building := (sql_search_movies, [], []) in
  let b1 : building :=
    match truthy_str search_term with
    | Some s =>
        let '(query, params, where_) := b0 in
        let p := "%" ++ s ++ "%" in
        (query ++ " AND (f.title ILIKE %s OR f.description ILIKE %s)",
         (params ++ [VStr p; VStr p])%list,
         (where_ ++ [title_or_description_ilike p p])%list)
    | None => b0
    end in
  let b2 : building :=
    match truthy_str genre with
    | Some g =>
        let '(query, params, where_) := b1 in
        let p := "%" ++ g ++ "%" in
        (query ++ " AND c.name ILIKE %s",
         (params ++ [VStr p])%list,
         (where_ ++ [name_ilike p])%list)
    | None => b1
    end in
  let b3 : building :=
    match truthy_int year with
    | Some y =>
        let '(query, params, where_) := b2 in
        (query ++ " AND f.release_year = %s",
         (params ++ [VInt y])%list,
         (where_ ++ [release_year_eq y])%list)
    | None => b2
    end in
  let '(query, params, where_) := b3 in
  let query := query ++ " ORDER BY f.title LIMIT %s" in
  let params := (params ++ [VInt limit])%list in
  with_connection (with_cursor (
    result <- execute query params (reading (select_movies where_ limit)) ;;
    fetchall result)).

(** *** [get_customer_history] *)

Definition sql_customer_history : string :=
  "SELECT r.rental_id, r.rental_date, r.return_date, f.title, p.amount FROM rental r JOIN inventory i ON r.inventory_id = i.inventory_id JOIN film f ON i.film_id = f.film_id LEFT JOIN payment p ON r.rental_id = p.rental_id WHERE r.customer_id = %s ORDER BY r.rental_date DESC LIMIT %s".

(** The result row; [h_amount] is NULL for a rental without payment. *)
Record history := {
  h_rental_id : Z; h_rental_date : Z; h_return_date : option Z;
  h_title : string; h_amount : option Z }.

Definition history_row (r : rental_row) (f : film_row) (amount : option Z) : history :=
  {| h_rental_id := r_rental_id r; h_rental_date := r_rental_date r;
     h_return_date := r_return_date r; h_title := f_title f; h_amount := amount |}.

Definition history_join (customer_id : Z) (d : database) : list history :=
  flat_map (fun r =>
    flat_map (fun i =>
      if (r_inventory_id r =? i_inventory_id i)%Z then
        flat_map (fun f =>
          if (i_film_id i =? f_film_id f)%Z then
            match filter (fun p => (r_rental_id r =? p_rental_id p)%Z) (payment d) with
            | [] => [history_row r f None]
            | paid => map (fun p => history_row r f (Some (p_amount p))) paid
            end
          else [])
          (film d)
      else [])
      (inventory d))
    (filter (fun r => (r_customer_id r =? customer_id)%Z) (rental d)).

Definition select_history (customer_id limit : Z) (d : database) : outcome (list history) :=
  limit_rows limit
    (sort_by (fun a b => (h_rental_date b <=? h_rental_date a)%Z)
       (history_join customer_id d)).

Definition get_customer_history (customer_id limit : Z) : M (list history) :=
  with_connection (with_cursor (
    result <- execute sql_customer_history [VInt customer_id; VInt limit]
                (reading (select_history customer_id limit)) ;;
    fetchall result)).

(** *** [rent_movie] *)

Definition sql_open_rental : string :=
  "SELECT rental_id FROM rental WHERE inventory_id = %s AND return_date IS NULL".

Definition is_open (r : rental_row) : bool :=
  match r_return_date r with
  | None => true
  | Some _ => false
  end.

Definition select_open_rental (inventory_id : Z) (d : database) : outcome (list Z) :=
  Returned
    (map r_rental_id
       (filter (fun r => (r_inventory_id r =? inventory_id)%Z && is_open r) (rental d))).

Definition sql_insert_rental : string :=
  "INSERT INTO rental (rental_date, inventory_id, customer_id, staff_id) VALUES (NOW(), %s, %s, %s) RETURNING rental_id".

(** The new row takes the next value of the sequence as its [rental_id] and
    NULL for the column the statement leaves out.  The server rejects the
    statement when the table does not admit the row. *)
Definition new_rental (inventory_id customer_id staff_id now : Z) (d : database)
    : rental_row :=
  {| r_rental_id := rental_id_seq d + 1; r_rental_date := now;
     r_inventory_id := inventory_id; r_customer_id := customer_id;
     r_staff_id := staff_id; r_return_date := None |}.

Definition insert_rental (inventory_id customer_id staff_id : Z)
    : Z -> database -> outcome (result_set Z * database) :=
  fun now d =>
    let r := new_rental inventory_id customer_id staff_id now d in
    if admits r d
    then Returned (Some [r_rental_id r],
                   with_rental d (rental d ++ [r])%list (r_rental_id r))
    else Raised DatabaseError.

Definition sequence_after_insert (inventory_id customer_id staff_id : Z)
    : Z -> database -> Z :=
  fun now d =>
    let r := new_rental inventory_id customer_id staff_id now d in
    if draws r d then r_rental_id r else rental_id_seq d.

Definition rent_movie (customer_id inventory_id staff_id : Z) : M string :=
  with_connection (with_cursor (
    found <- execute sql_open_rental [VInt inventory_id]
               (reading (select_open_rental inventory_id)) ;;
    open_rental <- fetchone found ;;
    match open_rental with
    | Some _ =>
        ret ("Error: Inventory item " ++ PyStr.str_of_int inventory_id
             ++ " is already rented out.")
    | None =>
        ids <- execute_drawing sql_insert_rental
                 [VInt inventory_id; VInt customer_id; VInt staff_id]
                 (insert_rental inventory_id customer_id staff_id)
                 (sequence_after_insert inventory_id customer_id staff_id) ;;
        row <- fetchone ids ;;
        match row with
        | None => raise TypeError
        | Some rental_id =>
            commit ;;;
            ret ("Successfully rented. Rental ID: " ++ PyStr.str_of_int rental_id)
        end
    end)).

(** *** [return_movie] *)

Definition sql_return_date : string :=
  "SELECT return_date FROM rental WHERE rental_id = %s".

Definition select_return_date (rental_id : Z) (d : database) : outcome (list (option Z)) :=
  Returned
    (map r_return_date (filter (fun r => (r_rental_id r =? rental_id)%Z) (rental d))).

Definition sql_set_return_date : string :=
  "UPDATE rental SET return_date = NOW() WHERE rental_id = %s".

Definition set_return_date (now : Z) (r : rental_row) : rental_row :=
  {| r_rental_id := r_rental_id r; r_rental_date := r_rental_date r;
     r_inventory_id := r_inventory_id r; r_customer_id := r_customer_id r;
     r_staff_id := r_staff_id r; r_return_date := Some now |}.

Definition update_return_date (rental_id : Z)
    : Z -> database -> outcome (unit * database) :=
  fun now d =>
    Returned (tt,
      with_rental d
        (map (fun r => if (r_rental_id r =? rental_id)%Z then set_return_date now r else r)
           (rental d))
        (rental_id_seq d)).

Definition return_movie (rental_id : Z) : M string :=
  with_connection (with_cursor (
    result <- execute sql_return_date [VInt rental_id]
                (reading (select_return_date rental_id)) ;;
    row <- fetchone result ;;
    match row with
    | None => ret ("Error: Rental ID " ++ PyStr.str_of_int rental_id ++ " not found.")
    | Some (Some returned) =>
        ret ("Error: Rental ID " ++ PyStr.str_of_int rental_id
             ++ " already returned on " ++ str_of_datetime returned ++ ".")
    | Some None =>
        execute sql_set_return_date [VInt rental_id] (update_return_date rental_id) ;;;
        commit ;;;
        ret ("Successfully returned rental " ++ PyStr.str_of_int rental_id ++ ".")
    end)).

(** *** [get_available_inventory] *)

Definition sql_available_inventory : string :=
  "SELECT inventory_id, store_id FROM inventory WHERE film_id = %s AND inventory_id NOT IN (SELECT inventory_id FROM rental WHERE return_date IS NULL)".

Record available := { inventory_id : Z; store_id : Z }.

Definition open_inventory_ids (d : database) : list Z :=
  map r_inventory_id (filter is_open (rental d)).

Definition select_available (film_id : Z) (d : database) : outcome (list available) :=
  Returned
    (map (fun i => {| inventory_id := i_inventory_id i; store_id := i_store_id i |})
       (filter (fun i => (i_film_id i =? film_id)%Z
                         && negb (existsb (Z.eqb (i_inventory_id i)) (open_inventory_ids d)))
          (inventory d))).

Definition get_available_inventory (film_id : Z) : M (list available) :=
  with_connection (with_cursor (
    result <- execute sql_available_inventory [VInt film_id]
                (reading (select_available film_id)) ;;
    fetchall result)).

(** *** [analyze_revenue] *)

Definition sql_revenue_by_category : string :=
  "SELECT c.name as category, SUM(p.amount) as revenue FROM payment p JOIN rental r ON p.rental_id = r.rental_id JOIN inventory i ON r.inventory_id = i.inventory_id JOIN film_category fc ON i.film_id = fc.film_id JOIN category c ON fc.category_id = c.category_id GROUP BY c.name ORDER BY revenue DESC".

Definition sql_revenue_by_store : string :=
  "SELECT s.store_id, SUM(p.amount) as revenue FROM payment p JOIN staff s ON p.staff_id = s.staff_id GROUP BY s.store_id ORDER BY revenue DESC".

(** The result row of either statement. *)
Inductive revenue_row :=
| CategoryRevenue (category : string) (revenue : Z)
| StoreRevenue (store_id : Z) (revenue : Z).

Definition category_payments (d : database) : list (string * Z) :=
  flat_map (fun p =>
    flat_map (fun r =>
      if (p_rental_id p =? r_rental_id r)%Z then
        flat_map (fun i =>
          if (r_inventory_id r =? i_inventory_id i)%Z then
            flat_map (fun fc =>
              if (i_film_id i =? fc_film_id fc)%Z then
                flat_map (fun c =>
                  if (fc_category_id fc =? c_category_id c)%Z
                  then [(c_name c, p_amount p)] else [])
                  (category d)
              else [])
              (film_category d)
          else [])
          (inventory d)
      else [])
      (rental d))
    (payment d).

Definition store_payments (d : database) : list (Z * Z) :=
  flat_map (fun p =>
    flat_map (fun s =>
      if (p_staff_id p =? s_staff_id s)%Z then [(s_store_id s, p_amount p)] else [])
      (staff d))
    (payment d).

Definition by_revenue_desc {K : Type} (a b : K * Z) : bool := (snd b <=? snd a)%Z.

Definition select_revenue_by_category (d : database) : outcome (list revenue_row) :=
  Returned
    (map (fun kv => CategoryRevenue (fst kv) (snd kv))
       (sort_by by_revenue_desc (group_sum String.eqb (category_payments d)))).

Definition select_revenue_by_store (d : database) : outcome (list revenue_row) :=
  Returned
    (map (fun kv => StoreRevenue (fst kv) (snd kv))
       (sort_by by_revenue_desc (group_sum Z.eqb (store_payments d)))).

Definition analyze_revenue (by_category : bool) : M (list revenue_row) :=
  with_connection (with_cursor (
    result <- (if by_category
               then execute sql_revenue_by_category [] (reading select_revenue_by_category)
               else execute sql_revenue_by_store [] (reading select_revenue_by_store)) ;;
    fetchall result)).

(** ** Vocabulary of the statements proved below *)

(** Every character of [s] satisfies [f]. *)
Fixpoint all_chars (f : ascii -> bool) (s : string) : bool :=
  match s with
  | EmptyString => true
  | String c s' => f c && all_chars f s'
  end.

Fixpoint last_char (s : string) : option ascii :=
  match s with
  | EmptyString => None
  | String c EmptyString => Some c
  | String _ s' => last_char s'
  end.

Definition first_char (s : string) : option ascii :=
  match s with
  | EmptyString => None
  | String c _ => Some c
  end.

(** [s] begins with [kw], letter case apart. *)
Definition starts_with_ci (kw s : string) : Prop :=
  exists p rest, s = p ++ rest /\ PyStr.lower p = PyStr.lower kw.

(** The Read-Only Guard lets [query] through. *)
Definition accepted (query : string) : Prop :=
  starts_with_ci "select" (PyStr.strip query).





(** An open rental of the item [inventory_id]. *)
Definition open_rental_of (inventory_id : Z) (r : rental_row) : Prop :=
  r_inventory_id r = inventory_id /\ r_return_date r = None.

(** The tables other than [rental] are the same in [d] and [d']. *)
Definition same_catalog (d d' : database) : Prop :=
  film d' = film d /\ category d' = category d /\ film_category d' = film_category d
  /\ inventory d' = inventory d /\ payment d' = payment d /\ staff d' = staff d
  /\ tables d' = tables d /\ columns d' = columns d.

(** Each element of [l] is below the next one. *)
Fixpoint chain {A : Type} (le : A -> A -> bool) (l : list A) : Prop :=
  match l with
  | [] => True
  | a :: rest =>
      match rest with
      | [] => True
      | b :: _ => le a b = true
      end /\ chain le rest
  end.

(** The titles of [rows] ascend in the collation. *)
Definition ascending (rows : list movie) : Prop :=
  chain (fun a b => collate_le (title a) (title b)) rows.

(** The conjuncts [search_movies] puts after [WHERE 1=1] for its arguments. *)
Definition conjuncts (search_term genre : option string) (year : option Z)
    : list (joined -> bool) :=
  (match truthy_str search_term with
   | Some s => [title_or_description_ilike ("%" ++ s ++ "%") ("%" ++ s ++ "%")]
   | None => []
   end
   ++ match truthy_str genre with
      | Some g => [name_ilike ("%" ++ g ++ "%")]
      | None => []
      end
   ++ match truthy_int year with
      | Some y => [release_year_eq y]
      | None => []
      end)%list.

(** The row [return_movie] fetches for an identifier: the first one that
    carries it. *)
Definition rental_with (rental_id : Z) (d : database) : option rental_row :=
  find (fun r => (r_rental_id r =? rental_id)%Z) (rental d).

(** A character foreign to the pattern stops every match that reaches it. *)
Definition foreign (c : ascii) (p : string) : bool :=
  all_chars (fun x => negb (Ascii.eqb x c)) p.

Ltac simpl_world :=
  cbn [fst snd view pending set_pending set_committed log set_live clock committed
       server_up live option_map].

Ltac run_driver :=
  unfold with_connection, with_cursor, fetchall, fetchone, bind, get_connection, execute,
    execute_drawing, execute_text, reading, ret, raise, commit, rollback, finalize.

(** A computation that neither opens nor closes a connection: the count of
    live connections stays and the journal grows by calls other than
    [close]. *)
Definition quiet {A : Type} (m : M A) : Prop :=
  forall w,
    live (snd (m w)) = live w
    /\ exists evs, journal (snd (m w)) = (journal w ++ evs)%list /\ ~ In EvClose evs.

(** Running [m] from [w] opens a connection and never calls [close] on it:
    the connection is gone once [m] has returned, and still open once [m]
    has raised. *)
Definition open_after_raising {A : Type} (m : M A) (w : world) : Prop :=
  match fst (m w) with
  | Returned _ => live (snd (m w)) = live w
  | Raised _ => live (snd (m w)) = S (live w)
  end
  /\ exists evs,
       journal (snd (m w)) = (journal w ++ EvConnect :: evs)%list /\ ~ In EvClose evs.

(** *** A small database for the examples *)

Definition sample_db : database :=
  {| film :=
       [ {| f_film_id := 1; f_title := "Alien"; f_description := "A crew meets a stowaway";
            f_release_year := 2006; f_rental_rate := 299; f_rating := "R" |};
         {| f_film_id := 2; f_title := "Brazil"; f_description := "A clerk dreams";
            f_release_year := 1985; f_rental_rate := 99; f_rating := "R" |};
         {| f_film_id := 3; f_title := "Casablanca"; f_description := "A cafe in wartime";
            f_release_year := 1942; f_rental_rate := 99; f_rating := "PG" |} ];
     category :=
       [ {| c_category_id := 1; c_name := "Sci-Fi" |};
         {| c_category_id := 2; c_name := "Drama" |} ];
     film_category :=
       [ {| fc_film_id := 1; fc_category_id := 1 |};
         {| fc_film_id := 2; fc_category_id := 1 |};
         {| fc_film_id := 2; fc_category_id := 2 |} ];
     inventory :=
       [ {| i_inventory_id := 10; i_film_id := 1; i_store_id := 1 |};
         {| i_inventory_id := 11; i_film_id := 1; i_store_id := 2 |};
         {| i_inventory_id := 12; i_film_id := 2; i_store_id := 1 |} ];
     rental :=
       [ {| r_rental_id := 6; r_rental_date := 100; r_inventory_id := 11;
            r_customer_id := 4; r_staff_id := 1; r_return_date := Some 500%Z |};
         {| r_rental_id := 7; r_rental_date := 600; r_inventory_id := 10;
            r_customer_id := 5; r_staff_id := 2; r_return_date := None |} ];
     rental_id_seq := 7;
     payment :=
       [ {| p_rental_id := 6; p_staff_id := 1; p_amount := 299 |} ];
     staff := [ {| s_staff_id := 1; s_store_id := 1 |}; {| s_staff_id := 2; s_store_id := 2 |} ];
     tables := [("public", "rental"); ("public", "film"); ("audit", "log")];
     columns :=
       [ {| col_table_schema := "public"; col_table_name := "category";
            col_column_name := "name"; col_data_type := "text";
            col_is_nullable := "NO"; col_ordinal_position := 2 |};
         {| col_table_schema := "public"; col_table_name := "category";
            col_column_name := "category_id"; col_data_type := "integer";
            col_is_nullable := "NO"; col_ordinal_position := 1 |} ] |}.

Definition sample_world : world :=
  {| committed := sample_db; pending := None; live := 0; journal := [];
     server_up := true; clock := 1000 |}.

(** A server that answers every free-form statement with no rows. *)
Definition sample_server : string -> database -> answer :=
  fun _ d => {| reply_of := Rows []; durable := d; view_after := d |}.

(** A locale that folds the letters A-Z and those of the Latin-1 block. *)
Definition sample_fold : ascii -> ascii := PyStr.lower_char.

(** A rental table with 32-bit integer columns for its identifiers, whose
    items must be in the inventory. *)
Definition fits_integer (n : Z) : bool := (- 2 ^ 31 <=? n)%Z && (n <? 2 ^ 31)%Z.

Definition sample_admits : rental_row -> database -> bool :=
  fun r d =>
    fits_integer (r_rental_id r) && fits_integer (r_inventory_id r)
    && fits_integer (r_customer_id r) && fits_integer (r_staff_id r)
    && existsb (fun i => (i_inventory_id i =? r_inventory_id r)%Z) (inventory d).

(** There a value out of range is refused before the identifier is drawn,
    an item that is not in the inventory after. *)
Definition sample_draws : rental_row -> database -> bool :=
  fun r _ =>
    fits_integer (r_inventory_id r) && fits_integer (r_customer_id r)
    && fits_integer (r_staff_id r).

(** A rendering of timestamps for the examples. *)
Definition sample_str_of_datetime : Z -> string := PyStr.str_of_int.

(** *** Two sentences of the specification, as predicates

    [capped_once]: the statement is the query without the semicolons and
    the white space at its end, followed by the one LIMIT clause it holds.
    [meets_filters]: the row contains each text given and has the year
    given. *)
Definition capped_once (query : string) (limit : Z) (statement : string) : Prop :=
  statement
  = PyStr.rstrip_by (fun c => PyStr.is_semicolon c || PyStr.isspace c) query
    ++ " LIMIT " ++ PyStr.str_of_int limit
  /\ PyStr.occurrences "LIMIT" statement = 1.


(** *** Rentals, as changes of the database *)

(** The item has an open rental. *)
Definition has_open_rental (inventory_id : Z) (d : database) : bool :=
  existsb (fun r => (r_inventory_id r =? inventory_id)%Z && is_open r) (rental d).

(** The view a statement leaves behind, [d] itself when it fails. *)
Definition new_view {A : Type} (o : outcome (A * database)) (d : database) : database :=
  match o with
  | Returned (_, d') => d'
  | Raised _ => d
  end.

(** The database after the INSERT of [rent_movie], after the UPDATE of
    [return_movie]. *)
Definition rented (customer_id inventory_id staff_id now : Z) (d : database) : database :=
  new_view (insert_rental inventory_id customer_id staff_id now d) d.

Definition returned (rental_id now : Z) (d : database) : database :=
  new_view (update_return_date rental_id now d) d.

(** The database after an INSERT of [rent_movie] that was refused. *)
Definition refused (customer_id inventory_id staff_id now : Z) (d : database) : database :=
  with_sequence d (sequence_after_insert inventory_id customer_id staff_id now d).

(** No item is out on two open rentals. *)
Definition one_open_rental_per_item (d : database) : Prop :=
  NoDup (open_inventory_ids d).

(** The texts the two operations return. *)
Definition already_rented_out (inventory_id : Z) : string :=
  "Error: Inventory item " ++ PyStr.str_of_int inventory_id ++ " is already rented out.".

Definition successfully_rented (rental_id : Z) : string :=
  "Successfully rented. Rental ID: " ++ PyStr.str_of_int rental_id.

Definition successfully_returned (rental_id : Z) : string :=
  "Successfully returned rental " ++ PyStr.str_of_int rental_id ++ ".".

(** The row of [get_available_inventory] for an inventory row. *)
Definition available_of (i : inventory_row) : available :=
  {| inventory_id := i_inventory_id i; store_id := i_store_id i |}.

(** *** Searching and reporting, the words of the statements *)

(** The rows of the join that pass the filters of a search. *)
Definition matching (search_term genre' : option string) (year : option Z) (d : database)
    : list joined :=
  filter (fun j => forallb (fun cond => cond j) (conjuncts search_term genre' year))
    (film_join d).

(** Latest rental first. *)
Definition latest_first (a b : history) : bool := (h_rental_date b <=? h_rental_date a)%Z.

Definition sum_Z (l : list Z) : Z := fold_right Z.add 0%Z l.

(** The amount a grouping holds for a key, zero when the key is not there. *)
Fixpoint amount_of {K : Type} (same : K -> K -> bool) (k : K) (acc : list (K * Z)) : Z :=
  match acc with
  | [] => 0%Z
  | (k', total) :: acc' => if same k k' then total else amount_of same k acc'
  end.

(** The sum of the values the rows carry for a key. *)
Definition paid_for {K : Type} (same : K -> K -> bool) (k : K) (rows : list (K * Z)) : Z :=
  sum_Z (map snd (filter (fun row => same k (fst row)) rows)).

Definition revenue_of (row : revenue_row) : Z :=
  match row with
  | CategoryRevenue _ revenue => revenue
  | StoreRevenue _ revenue => revenue
  end.

(** Highest revenue first. *)
Definition highest_first (a b : revenue_row) : bool := (revenue_of b <=? revenue_of a)%Z.

Definition column_of (c : column_row) : column :=
  {| column_name := col_column_name c; data_type := col_data_type c;
     is_nullable := col_is_nullable c |}.

(** The sample world with the server out of reach, and a server that
    rejects every free-form statement. *)
Definition sample_world_down : world :=
  {| committed := sample_db; pending := None; live := 0; journal := [];
     server_up := false; clock := 1000 |}.

Definition sample_rejecting_server : string -> database -> answer :=
  fun _ d => {| reply_of := Rejected; durable := d; view_after := d |}.

(** ** Facts about the string methods *)

Lemma append_nil_r (s : string) : s ++ "" = s.
Proof. induction s as [|c s IH]; simpl; [reflexivity | now rewrite IH]. Qed.

Lemma append_assoc (a b c : string) : (a ++ b) ++ c = a ++ (b ++ c).
Proof. induction a as [|x a IH]; simpl; [reflexivity | now rewrite IH]. Qed.

Lemma startswith_lower (p s : string) :
  PyStr.startswith p (PyStr.lower s) = true <->
  exists a b, s = a ++ b /\ PyStr.lower a = p.
Proof.
  revert s; induction p as [|x p IH]; intros s.
  - split; [intros _; exists "", s; split; reflexivity | reflexivity].
  - destruct s as [|c s]; simpl.
    + split; [discriminate |].
      intros (a & b & Hs & Ha). destruct a; simpl in *; discriminate.
    + rewrite andb_true_iff, Ascii.eqb_eq, IH. split.
      * intros (Hx & a & b & Hs & Ha). exists (String c a), b.
        subst; simpl. split; reflexivity.
      * intros (a & b & Hs & Ha). destruct a as [|c' a]; simpl in *; [discriminate|].
        injection Hs as -> ->. injection Ha as <- <-.
        split; [reflexivity | exists a, b; split; reflexivity].
Qed.

Lemma lower_select : PyStr.lower "select" = "select".
Proof. reflexivity. Qed.

(** The test of the source is the guard of the specification. *)
Lemma guard_test (query : string) :
  PyStr.startswith "select" (PyStr.lower (PyStr.strip query)) = true <-> accepted query.
Proof.
  unfold accepted, starts_with_ci. rewrite lower_select. apply startswith_lower.
Qed.

Lemma lstrip_by_split (f : ascii -> bool) (s : string) :
  exists l, s = l ++ PyStr.lstrip_by f s /\ all_chars f l = true.
Proof.
  induction s as [|c s (l & Hs & Hl)]; simpl.
  - exists "". split; reflexivity.
  - destruct (f c) eqn:Hc.
    + exists (String c l). simpl. rewrite Hc, Hl. split; [now rewrite <- Hs | reflexivity].
    + exists "". split; reflexivity.
Qed.

Lemma lstrip_by_first (f : ascii -> bool) (s : string) (c : ascii) :
  first_char (PyStr.lstrip_by f s) = Some c -> f c = false.
Proof.
  induction s as [|x s IH]; simpl; [discriminate|].
  destruct (f x) eqn:Hx; [exact IH|]. simpl. intros [= <-]. exact Hx.
Qed.

Lemma rstrip_by_split (f : ascii -> bool) (s : string) :
  exists r, s = PyStr.rstrip_by f s ++ r /\ all_chars f r = true.
Proof.
  induction s as [|c s (r & Hs & Hr)]; simpl.
  - exists "". split; reflexivity.
  - destruct (PyStr.rstrip_by f s) as [|y t] eqn:Ht.
    + simpl in Hs. subst r. destruct (f c) eqn:Hc.
      * exists (String c s). simpl. rewrite Hc, Hr. split; reflexivity.
      * exists s. split; [reflexivity | exact Hr].
    + exists r. split; [simpl in *; now f_equal | exact Hr].
Qed.

Lemma rstrip_by_last (f : ascii -> bool) (s : string) (c : ascii) :
  last_char (PyStr.rstrip_by f s) = Some c -> f c = false.
Proof.
  induction s as [|x s IH]; simpl; [discriminate|].
  destruct (PyStr.rstrip_by f s) as [|y t] eqn:Ht.
  - destruct (f x) eqn:Hx; simpl; [discriminate|]. intros [= <-]. exact Hx.
  - intros H. apply IH. exact H.
Qed.

(** [strip] takes white space off both ends and nothing else. *)
Lemma strip_split (s : string) :
  exists l r, s = l ++ PyStr.strip s ++ r
              /\ all_chars PyStr.isspace l = true /\ all_chars PyStr.isspace r = true.
Proof.
  unfold PyStr.strip.
  destruct (lstrip_by_split PyStr.isspace s) as (l & Hs & Hl).
  destruct (rstrip_by_split PyStr.isspace (PyStr.lstrip_by PyStr.isspace s)) as (r & Ht & Hr).
  exists l, r. split; [|split; assumption].
  rewrite <- Ht. exact Hs.
Qed.

Lemma endswith_refl (p : string) : PyStr.endswith p p = true.
Proof. destruct p; simpl; [reflexivity|]. now rewrite Ascii.eqb_refl, String.eqb_refl. Qed.

Lemma endswith_append (a p : string) : PyStr.endswith p (a ++ p) = true.
Proof.
  induction a as [|c a IH]; simpl.
  - apply endswith_refl.
  - rewrite IH. apply orb_true_r.
Qed.

Lemma contains_refl_append (p b : string) : PyStr.startswith p (p ++ b) = true.
Proof. induction p as [|c p IH]; simpl; [reflexivity|]. now rewrite Ascii.eqb_refl. Qed.

Lemma contains_append (a p b : string) : PyStr.contains p (a ++ p ++ b) = true.
Proof.
  induction a as [|c a IH]; simpl.
  - assert (H := contains_refl_append p b).
    destruct (p ++ b); simpl; rewrite H; reflexivity.
  - rewrite IH. apply orb_true_r.
Qed.

Lemma contains_skip (a p s : string) :
  PyStr.contains p s = true -> PyStr.contains p (a ++ s) = true.
Proof.
  intros H. induction a as [|c a IH]; simpl; [exact H|].
  rewrite IH. apply orb_true_r.
Qed.

Lemma startswith_foreign (p a b : string) (c : ascii) :
  foreign c p = true ->
  PyStr.startswith p (a ++ String c b) = PyStr.startswith p a.
Proof.
  revert a; induction p as [|x p IH]; intros a Hp; [reflexivity|].
  simpl in Hp. apply andb_true_iff in Hp as [Hx Hp].
  destruct a as [|y a]; simpl.
  - apply negb_true_iff in Hx. now rewrite Hx.
  - now rewrite (IH a Hp).
Qed.

Lemma occurrences_foreign (p a b : string) (c : ascii) :
  p <> "" -> foreign c p = true ->
  PyStr.occurrences p (a ++ String c b)
  = PyStr.occurrences p a + PyStr.occurrences p (String c b).
Proof.
  intros Hne Hp. induction a as [|y a IH].
  - destruct p; [contradiction | reflexivity].
  - change (String y a ++ String c b) with (String y (a ++ String c b)).
    cbn [PyStr.occurrences]. rewrite IH.
    change (String y (a ++ String c b)) with (String y a ++ String c b).
    rewrite startswith_foreign by exact Hp.
    cbn [PyStr.occurrences]. lia.
Qed.

Lemma occurrences_absent (x : ascii) (p s : string) :
  foreign x s = true -> PyStr.occurrences (String x p) s = 0.
Proof.
  induction s as [|c s IH]; simpl; [reflexivity|].
  intros H. apply andb_true_iff in H as [Hc Hs].
  apply negb_true_iff in Hc. rewrite Ascii.eqb_sym in Hc. rewrite Hc. simpl. auto.
Qed.

(** The decimal rendering of an integer has digits and a sign only. *)
Lemma foreign_uint (c : ascii) (d : Decimal.uint) :
  (nat_of_ascii c <? 48) || (57 <? nat_of_ascii c) = true ->
  foreign c (NilEmpty.string_of_uint d) = true.
Proof.
  intros Hc. unfold foreign.
  assert (Hd : forall k, 48 <= k <= 57 -> Ascii.eqb (ascii_of_nat k) c = false).
  { intros k Hk. apply Ascii.eqb_neq. intros <-.
    rewrite nat_ascii_embedding in Hc by lia.
    apply orb_true_iff in Hc as [H|H]; apply Nat.ltb_lt in H; lia. }
  induction d; simpl; try reflexivity; rewrite IHd, andb_true_r; apply negb_true_iff.
  - apply (Hd 48); lia.
  - apply (Hd 49); lia.
  - apply (Hd 50); lia.
  - apply (Hd 51); lia.
  - apply (Hd 52); lia.
  - apply (Hd 53); lia.
  - apply (Hd 54); lia.
  - apply (Hd 55); lia.
  - apply (Hd 56); lia.
  - apply (Hd 57); lia.
Qed.

Lemma foreign_str_of_int (c : ascii) (n : Z) :
  (nat_of_ascii c <? 48) || (57 <? nat_of_ascii c) = true -> c <> "-"%char ->
  foreign c (PyStr.str_of_int n) = true.
Proof.
  intros Hc Hm. unfold PyStr.str_of_int, NilZero.string_of_int.
  assert (Hz : forall d, foreign c (NilZero.string_of_uint d) = true).
  { intros d. unfold NilZero.string_of_uint.
    destruct d; try (apply (foreign_uint c); exact Hc).
    unfold foreign; cbn [all_chars]. rewrite andb_true_r. apply negb_true_iff, Ascii.eqb_neq.
    intros <-. discriminate Hc. }
  destruct (Z.to_int n) as [d|d]; [apply Hz|].
  unfold foreign. cbn [all_chars]. fold (foreign c (NilZero.string_of_uint d)).
  rewrite Hz, andb_true_r.
  apply negb_true_iff, Ascii.eqb_neq. intros <-. now apply Hm.
Qed.

(** ** The Read-Only Guard and the row cap *)

Lemma semicolons_foreign (c : ascii) (s : string) :
  PyStr.is_semicolon c = false -> all_chars PyStr.is_semicolon s = true -> foreign c s = true.
Proof.
  intros Hc. unfold foreign. induction s as [|x s IH]; simpl; [reflexivity|].
  intros H. apply andb_true_iff in H as [Hx Hs]. rewrite (IH Hs), andb_true_r.
  apply negb_true_iff, Ascii.eqb_neq. intros ->. congruence.
Qed.

Lemma rstrip_semicolon_split (query : string) :
  exists semis,
    query = PyStr.rstrip_semicolon query ++ semis
    /\ all_chars PyStr.is_semicolon semis = true.
Proof. apply rstrip_by_split. Qed.

Lemma limit_count_rstrip (query : string) :
  PyStr.occurrences "LIMIT" (PyStr.rstrip_semicolon query) = PyStr.occurrences "LIMIT" query.
Proof.
  destruct (rstrip_semicolon_split query) as (semis & Hq & Hs).
  rewrite Hq at 2. destruct semis as [|c semis].
  - now rewrite append_nil_r.
  - assert (Hc : c = ";"%char).
    { simpl in Hs. apply andb_true_iff in Hs as [Hc _]. now apply Ascii.eqb_eq in Hc. }
    subst c. rewrite occurrences_foreign by (discriminate || reflexivity).
    rewrite (occurrences_absent "L" "IMIT" (String ";" semis)); [lia|].
    apply semicolons_foreign; [reflexivity | exact Hs].
Qed.

Lemma limit_count (query : string) (limit : Z) :
  PyStr.occurrences "LIMIT" (limited_query query limit)
  = S (PyStr.occurrences "LIMIT" query).
Proof.
  unfold limited_query.
  change (" LIMIT " ++ PyStr.str_of_int limit)
    with (String " " ("LIMIT " ++ PyStr.str_of_int limit)).
  rewrite occurrences_foreign by (discriminate || reflexivity).
  rewrite limit_count_rstrip.
  cbn [PyStr.occurrences PyStr.startswith append Ascii.eqb Bool.eqb andb].
  rewrite (occurrences_absent "L" "IMIT" (PyStr.str_of_int limit)); [lia|].
  apply foreign_str_of_int; [reflexivity | discriminate].
Qed.

(** C1.  A query text that, once white space is trimmed off both ends, does not
    begin with the word select (in any letter case) makes [run_select_query]
    raise [ValueError] and leaves the world as it was: no connection is
    opened and nothing is executed. *)
Theorem run_select_query_rejects (query : string) (limit : Z) (w : world) :
  ~ accepted query ->
  run_select_query query limit w
  = (Raised (ValueError "Only SELECT queries are allowed"), w).
Proof.
  intros Hno. unfold run_select_query.
  destruct (PyStr.startswith "select" (PyStr.lower (PyStr.strip query))) eqn:E.
  - apply guard_test in E. contradiction.
  - reflexivity.
Qed.

(** What an accepted query does to the journal, whatever its ending. *)
Lemma run_select_query_journal (query : string) (limit : Z) (w : world) :
  accepted query -> server_up w = true ->
  exists closing,
    journal (snd (run_select_query query limit w))
    = (journal w ++ [EvConnect; EvCursor; EvExecute (limited_query query limit) [];
                     EvCursorClose; closing])%list
    /\ (closing = EvCommit \/ closing = EvRollback).
Proof.
  intros Hok Hup. apply guard_test in Hok. unfold run_select_query. rewrite Hok.
  cbn [negb]. run_driver. rewrite Hup. cbn -[limited_query].
  destruct (reply_of (server_run (limited_query query limit) (committed w)));
    cbn -[limited_query].
  - exists EvCommit. split; [|now left]. now rewrite <- !app_assoc.
  - exists EvRollback. split; [|now right]. now rewrite <- !app_assoc.
  - exists EvRollback. split; [|now right]. now rewrite <- !app_assoc.
Qed.

(** C2, amended.  For an accepted query text that does not end in white space
    and any limit n, the one statement executed is the text without the
    semicolons at its end, followed by LIMIT n: it ends with that clause and
    holds one more LIMIT keyword than the text given. *)
Theorem run_select_query_limited (query : string) (limit : Z) (w : world) :
  accepted query ->
  PyStr.rstrip_by PyStr.isspace query = query ->
  server_up w = true ->
  exists base semis closing,
    query = base ++ semis
    /\ all_chars PyStr.is_semicolon semis = true
    /\ (forall c, last_char base = Some c -> PyStr.is_semicolon c = false)
    /\ journal (snd (run_select_query query limit w))
       = (journal w ++ [EvConnect; EvCursor;
                        EvExecute (base ++ " LIMIT " ++ PyStr.str_of_int limit) [];
                        EvCursorClose; closing])%list
    /\ (closing = EvCommit \/ closing = EvRollback)
    /\ PyStr.endswith (" LIMIT " ++ PyStr.str_of_int limit)
         (base ++ " LIMIT " ++ PyStr.str_of_int limit) = true
    /\ PyStr.occurrences "LIMIT" (base ++ " LIMIT " ++ PyStr.str_of_int limit)
       = S (PyStr.occurrences "LIMIT" query).
Proof.
  intros Hok _ Hup.
  destruct (rstrip_semicolon_split query) as (semis & Hq & Hs).
  destruct (run_select_query_journal query limit w Hok Hup) as (closing & Hj & Hc).
  exists (PyStr.rstrip_semicolon query), semis, closing.
  repeat split; try assumption.
  - intros c. apply rstrip_by_last.
  - apply endswith_append.
  - apply limit_count.
Qed.

(** ** Rentals *)

Lemma fetchone_filter {A B : Type} (g : A -> B) (f : A -> bool) (l : list A) :
  hd_error (map g (filter f l)) = option_map g (find f l).
Proof.
  induction l as [|x l IH]; simpl; [reflexivity|].
  destruct (f x); [reflexivity | exact IH].
Qed.

(** The decimal text of an integer reads back as that integer. *)
Lemma int_of_str_of_int (n : Z) : PyStr.int_of_str (PyStr.str_of_int n) = Some n.
Proof.
  unfold PyStr.int_of_str, PyStr.str_of_int. rewrite NilZero.isi.
  - cbn [option_map]. f_equal. apply DecimalZ.of_to.
  - destruct n; cbn; intros H; try discriminate H.
    injection H. apply DecimalPos.Unsigned.to_uint_nonnil.
  - destruct n; cbn; intros H; try discriminate H.
    injection H. apply DecimalPos.Unsigned.to_uint_nonnil.
Qed.

Lemma find_open_rental (inventory_id : Z) (rows : list rental_row) :
  (exists r, In r rows /\ open_rental_of inventory_id r) <->
  find (fun r => (r_inventory_id r =? inventory_id)%Z && is_open r) rows <> None.
Proof.
  clear collate_le server_run admits draws str_of_datetime.
  assert (Hf : forall r, (r_inventory_id r =? inventory_id)%Z && is_open r = true
                         <-> open_rental_of inventory_id r).
  { intros r. unfold open_rental_of, is_open.
    rewrite andb_true_iff, Z.eqb_eq. destruct (r_return_date r); intuition congruence. }
  split.
  - intros (r & Hin & Hr) Hnone.
    apply (find_none _ _ Hnone) in Hin. apply Hf in Hr. congruence.
  - destruct (find _ rows) as [r|] eqn:E; [intros _|congruence].
    apply find_some in E as [Hin Hr]. exists r. split; [exact Hin | now apply Hf].
Qed.

(** C3, amended.  With the server reachable: when the item has an open
    rental, [rent_movie] returns (does not raise) a text holding the words
    already rented out, runs no INSERT and leaves the committed database as
    it was.  Otherwise, when the rental table admits the new row, it appends
    that one row to [rental], for that item, customer and staff, dated
    [NOW()], with no return date and a fresh identifier, commits it, leaves
    the other tables alone and returns the success text, from which the
    identifier reads back; when the table does not admit the row, the error
    of the database is raised and no table changes: at most an identifier
    of the sequence is used up. *)
Theorem rent_movie_check_then_insert (customer_id inventory_id staff_id : Z) (w : world) :
  server_up w = true ->
  let d := committed w in
  let result := rent_movie customer_id inventory_id staff_id w in
  ((exists r, In r (rental d) /\ open_rental_of inventory_id r) ->
   exists msg,
     fst result = Returned msg
     /\ PyStr.contains "already rented out" msg = true
     /\ committed (snd result) = d
     /\ pending (snd result) = None
     /\ journal (snd result)
        = (journal w ++ [EvConnect; EvCursor;
                         EvExecute sql_open_rental [VInt inventory_id];
                         EvCursorClose; EvCommit])%list)
  /\
  ((~ exists r, In r (rental d) /\ open_rental_of inventory_id r) ->
   admits (new_rental inventory_id customer_id staff_id (clock w) d) d = true ->
   exists rental_id digits,
     fst result = Returned ("Successfully rented. Rental ID: " ++ digits)
     /\ PyStr.int_of_str digits = Some rental_id
     /\ rental (committed (snd result))
        = (rental d ++ [{| r_rental_id := rental_id; r_rental_date := clock w;
                           r_inventory_id := inventory_id;
                           r_customer_id := customer_id; r_staff_id := staff_id;
                           r_return_date := None |}])%list
     /\ (forall r, In r (rental d) -> r_rental_id r <= rental_id_seq d ->
                   r_rental_id r <> rental_id)%Z
     /\ same_catalog d (committed (snd result))
     /\ pending (snd result) = None
     /\ journal (snd result)
        = (journal w ++ [EvConnect; EvCursor;
                         EvExecute sql_open_rental [VInt inventory_id];
                         EvExecute sql_insert_rental
                           [VInt inventory_id; VInt customer_id; VInt staff_id];
                         EvCommit; EvCursorClose; EvCommit])%list)
  /\
  ((~ exists r, In r (rental d) /\ open_rental_of inventory_id r) ->
   admits (new_rental inventory_id customer_id staff_id (clock w) d) d = false ->
   fst result = Raised DatabaseError
   /\ rental (committed (snd result)) = rental d
   /\ same_catalog d (committed (snd result))
   /\ (rental_id_seq d <= rental_id_seq (committed (snd result)) <= rental_id_seq d + 1)%Z
   /\ pending (snd result) = None
   /\ journal (snd result)
      = (journal w ++ [EvConnect; EvCursor;
                       EvExecute sql_open_rental [VInt inventory_id];
                       EvExecute sql_insert_rental
                         [VInt inventory_id; VInt customer_id; VInt staff_id];
                       EvCursorClose; EvRollback])%list).
Proof.
  intros Hup d result. subst d result.
  unfold rent_movie, select_open_rental, insert_rental, sequence_after_insert. run_driver.
  rewrite Hup. cbn [fst snd view pending set_pending log set_live clock committed].
  rewrite fetchone_filter. split; [|split].
  - intros Hopen. apply find_open_rental in Hopen.
    destruct (find _ (rental (committed w))) as [r|]; [|congruence].
    cbn -[String.append PyStr.contains PyStr.str_of_int].
    eexists. split; [reflexivity|]. split.
    + change (PyStr.contains "already rented out"
                ("Error: Inventory item "
                 ++ (PyStr.str_of_int inventory_id
                     ++ (" is " ++ "already rented out" ++ "."))) = true).
      do 2 apply contains_skip. apply contains_append.
    + repeat split. now rewrite <- !app_assoc.
  - intros Hfree Hadmits. rewrite find_open_rental in Hfree.
    destruct (find _ (rental (committed w))) as [r|]; [exfalso; apply Hfree; congruence|].
    simpl_world. rewrite Hadmits.
    cbn -[String.append PyStr.contains PyStr.str_of_int].
    exists (rental_id_seq (committed w) + 1)%Z,
      (PyStr.str_of_int (rental_id_seq (committed w) + 1)).
    split; [reflexivity|]. split; [apply int_of_str_of_int|].
    split; [reflexivity|]. split; [intros r _ Hr; lia|].
    repeat split. now rewrite <- !app_assoc.
  - intros Hfree Hrefused. rewrite find_open_rental in Hfree.
    destruct (find _ (rental (committed w))) as [r|]; [exfalso; apply Hfree; congruence|].
    simpl_world. rewrite Hrefused.
    cbn -[String.append PyStr.contains PyStr.str_of_int Z.add].
    repeat split; try (destruct (draws _ _); cbn [r_rental_id new_rental]; lia).
    now rewrite <- !app_assoc.
Qed.

Lemma rental_with_none (rental_id : Z) (d : database) :
  rental_with rental_id d = None <->
  forall r, In r (rental d) -> r_rental_id r <> rental_id.
Proof.
  unfold rental_with. split.
  - intros H r Hin Heq. apply (find_none _ _ H) in Hin.
    apply Z.eqb_neq in Hin. contradiction.
  - intros H. destruct (find _ (rental d)) as [r|] eqn:E; [|reflexivity].
    apply find_some in E as [Hin Hr]. apply Z.eqb_eq in Hr. now apply H in Hin.
Qed.

(** The success path of [return_movie], step by step. *)
Lemma return_movie_success (rental_id : Z) (w : world) (r0 : rental_row) :
  server_up w = true ->
  rental_with rental_id (committed w) = Some r0 ->
  r_return_date r0 = None ->
  fst (return_movie rental_id w)
  = Returned ("Successfully returned rental " ++ PyStr.str_of_int rental_id ++ ".")
  /\ committed (snd (return_movie rental_id w))
     = with_rental (committed w)
         (map (fun r => if (r_rental_id r =? rental_id)%Z
                        then set_return_date (clock w) r else r)
            (rental (committed w)))
         (rental_id_seq (committed w))
  /\ pending (snd (return_movie rental_id w)) = None
  /\ journal (snd (return_movie rental_id w))
     = (journal w ++ [EvConnect; EvCursor;
                      EvExecute sql_return_date [VInt rental_id];
                      EvExecute sql_set_return_date [VInt rental_id];
                      EvCommit; EvCursorClose; EvCommit])%list.
Proof.
  intros Hup Hrow Hopen. unfold rental_with in Hrow.
  unfold return_movie, select_return_date, update_return_date. run_driver.
  rewrite Hup. cbn [fst snd view pending set_pending log set_live clock committed].
  rewrite fetchone_filter, Hrow. cbn [option_map]. rewrite Hopen.
  cbn -[String.append PyStr.str_of_int]. repeat split. now rewrite <- !app_assoc.
Qed.

(** C4.  With the server reachable: for an identifier no rental row carries,
    [return_movie] returns the not-found text; for a row whose return date is
    set it returns a text holding the words already returned and the
    committed database stays as it was; otherwise the success text is
    returned, every row with that identifier has [NOW()] as its return date
    afterwards, with its other fields as they were, every other row is as
    it was, and the change is committed. *)
Theorem return_movie_cases (rental_id : Z) (w : world) :
  server_up w = true ->
  let d := committed w in
  let result := return_movie rental_id w in
  match rental_with rental_id d with
  | None =>
      fst result
      = Returned ("Error: Rental ID " ++ PyStr.str_of_int rental_id ++ " not found.")
      /\ PyStr.contains "not found"
           ("Error: Rental ID " ++ PyStr.str_of_int rental_id ++ " not found.") = true
      /\ committed (snd result) = d
  | Some r =>
      match r_return_date r with
      | Some returned =>
          exists msg,
            fst result = Returned msg
            /\ PyStr.contains "already returned" msg = true
            /\ committed (snd result) = d
            /\ journal (snd result)
               = (journal w ++ [EvConnect; EvCursor;
                                EvExecute sql_return_date [VInt rental_id];
                                EvCursorClose; EvCommit])%list
      | None =>
          fst result
          = Returned ("Successfully returned rental " ++ PyStr.str_of_int rental_id ++ ".")
          /\ rental (committed (snd result))
             = map (fun r => if (r_rental_id r =? rental_id)%Z
                             then {| r_rental_id := r_rental_id r;
                                     r_rental_date := r_rental_date r;
                                     r_inventory_id := r_inventory_id r;
                                     r_customer_id := r_customer_id r;
                                     r_staff_id := r_staff_id r;
                                     r_return_date := Some (clock w) |}
                             else r) (rental d)
          /\ (forall r', In r' (rental (committed (snd result))) ->
                         r_rental_id r' = rental_id -> r_return_date r' = Some (clock w))
          /\ (exists r', In r' (rental (committed (snd result)))
                         /\ r_rental_id r' = rental_id
                         /\ r_return_date r' = Some (clock w))
          /\ pending (snd result) = None
          /\ journal (snd result)
             = (journal w ++ [EvConnect; EvCursor;
                              EvExecute sql_return_date [VInt rental_id];
                              EvExecute sql_set_return_date [VInt rental_id];
                              EvCommit; EvCursorClose; EvCommit])%list
      end
  end.
Proof.
  intros Hup d result. subst d result.
  destruct (rental_with rental_id (committed w)) as [r|] eqn:Hrow.
  - destruct (r_return_date r) as [returned|] eqn:Hdate.
    + unfold rental_with in Hrow.
      unfold return_movie, select_return_date. run_driver.
      rewrite Hup. cbn [fst snd view pending set_pending log set_live clock committed].
      rewrite fetchone_filter, Hrow. cbn [option_map]. rewrite Hdate.
      cbn -[String.append PyStr.contains PyStr.str_of_int].
      eexists. split; [reflexivity|]. split.
      * change (PyStr.contains "already returned"
                  ("Error: Rental ID "
                   ++ (PyStr.str_of_int rental_id
                       ++ (" " ++ "already returned"
                               ++ (" on " ++ str_of_datetime returned ++ ".")))) = true).
        do 2 apply contains_skip. apply contains_append.
      * split; [reflexivity | now rewrite <- !app_assoc].
    + destruct (return_movie_success rental_id w r Hup Hrow Hdate)
        as (Hret & Hdb & Hpend & Hj).
      split; [exact Hret|]. rewrite Hdb. cbn [rental with_rental].
      split; [reflexivity|]. split; [|split; [|split; assumption]].
      * intros r' Hin Hid. apply in_map_iff in Hin as (r0 & Hr' & _).
        destruct (r_rental_id r0 =? rental_id)%Z eqn:E.
        -- now subst r'.
        -- subst r'. apply Z.eqb_neq in E. contradiction.
      * unfold rental_with in Hrow. apply find_some in Hrow as [Hin Hid].
        exists (set_return_date (clock w) r). split; [|split].
        -- apply in_map_iff. exists r. now rewrite Hid.
        -- now apply Z.eqb_eq in Hid.
        -- reflexivity.
  - unfold rental_with in Hrow.
    unfold return_movie, select_return_date. run_driver.
    rewrite Hup. cbn [fst snd view pending set_pending log set_live clock committed].
    rewrite fetchone_filter, Hrow.
    cbn -[String.append PyStr.contains PyStr.str_of_int]. split; [reflexivity|].
    split; [|reflexivity].
    change (PyStr.contains "not found"
              ("Error: Rental ID "
               ++ (PyStr.str_of_int rental_id ++ (" " ++ "not found" ++ "."))) = true).
    do 2 apply contains_skip. apply contains_append.
Qed.

(** C10.  On the success path of [return_movie] the rental table keeps its
    rows in place: a row with another identifier is unchanged, a row with the
    given one changes in its return date only, and the other tables are
    untouched. *)
Theorem return_movie_frame (rental_id : Z) (w : world) (r0 : rental_row) :
  server_up w = true ->
  rental_with rental_id (committed w) = Some r0 ->
  r_return_date r0 = None ->
  let d := committed w in
  let d' := committed (snd (return_movie rental_id w)) in
  length (rental d') = length (rental d)
  /\ (forall n r,
        nth_error (rental d) n = Some r ->
        exists r',
          nth_error (rental d') n = Some r'
          /\ r_rental_id r' = r_rental_id r
          /\ r_rental_date r' = r_rental_date r
          /\ r_inventory_id r' = r_inventory_id r
          /\ r_customer_id r' = r_customer_id r
          /\ r_staff_id r' = r_staff_id r
          /\ (r_rental_id r <> rental_id -> r' = r))
  /\ same_catalog d d'
  /\ rental_id_seq d' = rental_id_seq d.
Proof.
  intros Hup Hrow Hopen d d'.
  destruct (return_movie_success rental_id w r0 Hup Hrow Hopen) as (_ & Hdb & _).
  subst d d'. rewrite Hdb. cbn [rental with_rental rental_id_seq].
  split; [apply length_map|]. split; [|repeat split].
  intros n r Hn. rewrite nth_error_map, Hn. cbn [option_map].
  destruct (r_rental_id r =? rental_id)%Z eqn:E.
  - eexists. split; [reflexivity|]. cbn. repeat split.
    apply Z.eqb_eq in E. congruence.
  - exists r. repeat split.
Qed.

(** ** Inventory *)

(** C5.  With the server reachable [get_available_inventory] returns rows,
    and each of them comes from an inventory row of the film asked for whose
    item no rental row with a null return date refers to. *)
Theorem get_available_inventory_sound (film_id : Z) (w : world) :
  server_up w = true ->
  exists rows,
    fst (get_available_inventory film_id w) = Returned rows
    /\ forall a, In a rows ->
         (exists i, In i (inventory (committed w))
                    /\ i_film_id i = film_id
                    /\ i_inventory_id i = inventory_id a
                    /\ i_store_id i = store_id a)
         /\ (forall r, In r (rental (committed w)) ->
                       r_inventory_id r = inventory_id a -> r_return_date r <> None).
Proof.
  intros Hup. unfold get_available_inventory, select_available. run_driver.
  rewrite Hup. cbn [fst snd view pending set_pending log set_live clock committed].
  eexists. split; [reflexivity|].
  intros a Ha. apply in_map_iff in Ha as (i & <- & Hi).
  apply filter_In in Hi as (Hin & Hcond).
  apply andb_true_iff in Hcond as (Hfilm & Hfree).
  apply Z.eqb_eq in Hfilm. apply negb_true_iff in Hfree. split.
  - exists i. cbn. repeat split; assumption.
  - cbn [inventory_id]. intros r Hr Hsame Hnull.
    assert (Hex : existsb (Z.eqb (i_inventory_id i)) (open_inventory_ids (committed w)) = true).
    { apply existsb_exists. exists (r_inventory_id r). split.
      - unfold open_inventory_ids. apply in_map, filter_In. split; [exact Hr|].
        unfold is_open. now rewrite Hnull.
      - apply Z.eqb_eq. congruence. }
    congruence.
Qed.

(** ** Pattern matching *)






Lemma ilike_percent (p t : string) :
  ilike_match (String "%" p) t
  = ilike_match p t
    || match t with
       | EmptyString => false
       | String _ t' => ilike_match (String "%" p) t'
       end.
Proof. destruct t; reflexivity. Qed.

Lemma ilike_percent_iff (p t : string) :
  ilike_match (String "%" p) t = true <->
  exists a b, t = a ++ b /\ ilike_match p b = true.
Proof.
  induction t as [|c t IH]; rewrite ilike_percent.
  - rewrite orb_false_r. split.
    + intros H. now exists "", "".
    + intros (a & b & Hab & H). destruct a; [|discriminate]. simpl in Hab. now subst b.
  - rewrite orb_true_iff, IH. split.
    + intros [H | (a & b & -> & H)]; [now exists "", (String c t) | now exists (String c a), b].
    + intros (a & b & Hab & H). destruct a as [|x a].
      * left. simpl in Hab. now subst b.
      * right. injection Hab as -> ->. now exists a, b.
Qed.




(** ** Ordering and joining *)

Lemma insert_by_perm {A : Type} (le : A -> A -> bool) (x : A) (l : list A) :
  Permutation (insert_by le x l) (x :: l).
Proof.
  induction l as [|y l IH]; simpl; [apply Permutation_refl|].
  destruct (le x y); [apply Permutation_refl|].
  apply perm_trans with (y :: x :: l); [now apply perm_skip | apply perm_swap].
Qed.

Lemma sort_by_perm {A : Type} (le : A -> A -> bool) (l : list A) :
  Permutation (sort_by le l) l.
Proof.
  induction l as [|x l IH]; simpl; [apply perm_nil|].
  apply perm_trans with (x :: sort_by le l); [apply insert_by_perm | now apply perm_skip].
Qed.

Lemma chain_insert {A : Type} (le : A -> A -> bool) (x : A) (l : list A) :
  (forall a b, le a b = true \/ le b a = true) ->
  chain le l -> chain le (insert_by le x l).
Proof.
  intros Htotal. induction l as [|y l IH]; intros Hl.
  - simpl. auto.
  - cbn [insert_by]. destruct (le x y) eqn:Hxy.
    + split; [exact Hxy | exact Hl].
    + destruct Hl as [Hhead Htail]. specialize (IH Htail).
      split; [|exact IH].
      destruct l as [|z l]; cbn [insert_by].
      * destruct (Htotal x y) as [H|H]; [congruence | exact H].
      * destruct (le x z); [|exact Hhead].
        destruct (Htotal x y) as [H|H]; [congruence | exact H].
Qed.

Lemma chain_sort {A : Type} (le : A -> A -> bool) (l : list A) :
  (forall a b, le a b = true \/ le b a = true) -> chain le (sort_by le l).
Proof.
  intros Htotal. induction l as [|x l IH]; simpl; [exact I|].
  now apply chain_insert.
Qed.

Lemma chain_firstn {A : Type} (le : A -> A -> bool) (n : nat) (l : list A) :
  chain le l -> chain le (firstn n l).
Proof.
  revert l; induction n as [|n IH]; intros l Hl; [exact I|].
  destruct l as [|a l]; [exact I|]. destruct Hl as [Hhead Htail].
  cbn [firstn]. split; [|now apply IH].
  destruct l as [|b l]; [destruct n; exact I|]. destruct n; [exact I | exact Hhead].
Qed.

Lemma chain_map {A B : Type} (f : A -> B) (le : B -> B -> bool) (l : list A) :
  chain (fun a b => le (f a) (f b)) l -> chain le (map f l).
Proof.
  induction l as [|a l IH]; [auto|]. intros [Hhead Htail].
  cbn [map]. split; [|now apply IH]. destruct l; [exact I | exact Hhead].
Qed.

Lemma in_firstn {A : Type} (n : nat) (l : list A) (x : A) :
  In x (firstn n l) -> In x l.
Proof.
  intros H. rewrite <- (firstn_skipn n l). apply in_or_app. now left.
Qed.

Lemma limit_rows_in_range {A : Type} (n : Z) (l : list A) :
  (0 <= n < 2 ^ 63)%Z -> limit_rows n l = Returned (firstn (Z.to_nat n) l).
Proof.
  intros [Hlow Hhigh]. unfold limit_rows.
  destruct (n <? 0)%Z eqn:E1; [apply Z.ltb_lt in E1; lia|].
  destruct (2 ^ 63 <=? n)%Z eqn:E2; [apply Z.leb_le in E2; lia | reflexivity].
Qed.

(** The join pairs every film with each of its categories. *)
Lemma film_join_spec (d : database) (f : film_row) (fc : film_category_row)
    (c : category_row) :
  In (f, fc, c) (film_join d) <->
  In f (film d) /\ In fc (film_category d) /\ In c (category d)
  /\ f_film_id f = fc_film_id fc /\ fc_category_id fc = c_category_id c.
Proof.
  unfold film_join. rewrite in_flat_map. split.
  - intros (f' & Hf & H). apply in_flat_map in H as (fc' & Hfc & H).
    destruct (f_film_id f' =? fc_film_id fc')%Z eqn:E1; [|contradiction].
    apply in_flat_map in H as (c' & Hc & H).
    destruct (fc_category_id fc' =? c_category_id c')%Z eqn:E2; [|contradiction].
    destruct H as [[= <- <- <-]|[]].
    apply Z.eqb_eq in E1, E2. auto.
  - intros (Hf & Hfc & Hc & E1 & E2). exists f. split; [exact Hf|].
    apply in_flat_map. exists fc. split; [exact Hfc|].
    apply Z.eqb_eq in E1. rewrite E1.
    apply in_flat_map. exists c. split; [exact Hc|].
    apply Z.eqb_eq in E2. rewrite E2. now left.
Qed.

(** ** Searching *)

Lemma search_movies_outcome (search_term genre : option string) (year : option Z)
    (limit : Z) (w : world) :
  server_up w = true ->
  fst (search_movies search_term genre year limit w)
  = select_movies (conjuncts search_term genre year) limit (committed w).
Proof.
  intros Hup. unfold search_movies, conjuncts.
  destruct (truthy_str search_term), (truthy_str genre), (truthy_int year);
    run_driver; rewrite Hup;
    cbn [fst snd view pending set_pending log set_live clock committed app];
    match goal with
    | |- context [select_movies ?c limit (committed w)] =>
        destruct (select_movies c limit (committed w)); reflexivity
    end.
Qed.


Lemma truthy_str_some (s : string) : s <> "" -> truthy_str (Some s) = Some s.
Proof. destruct s; [contradiction | reflexivity]. Qed.



(** C7, amended.  With the server reachable, a limit the server takes (not
    negative, below 2^63) and a collation that compares any two titles,
    [search_movies] without filters returns the first [limit] rows of the
    join of the films with their categories put in ascending order of title:
    one row for each film and each category it is linked to, none for a film
    without a category. *)
Theorem search_movies_unfiltered (limit : Z) (w : world) :
  server_up w = true -> (0 <= limit < 2 ^ 63)%Z ->
  (forall a b, collate_le a b = true \/ collate_le b a = true) ->
  exists rows rest,
    fst (search_movies None None None limit w) = Returned rows
    /\ ascending (rows ++ rest)%list
    /\ Permutation (rows ++ rest)%list (map movie_of (film_join (committed w)))
    /\ length rows = Nat.min (Z.to_nat limit) (length (film_join (committed w)))
    /\ (forall m, In m (rows ++ rest)%list <->
          exists f fc c,
            In f (film (committed w)) /\ In fc (film_category (committed w))
            /\ In c (category (committed w))
            /\ f_film_id f = fc_film_id fc /\ fc_category_id fc = c_category_id c
            /\ m = movie_of (f, fc, c)).
Proof.
  clear server_run admits str_of_datetime.
  intros Hup Hlimit Htotal. rewrite (search_movies_outcome _ _ _ _ _ Hup).
  unfold conjuncts, select_movies. cbn [truthy_str truthy_int app forallb].
  rewrite limit_rows_in_range by lia.
  rewrite filter_true.
  set (le := fun a b : joined => collate_le (f_title (fst (fst a))) (f_title (fst (fst b)))).
  set (sorted := sort_by le (film_join (committed w))).
  exists (firstn (Z.to_nat limit) (map movie_of sorted)),
    (skipn (Z.to_nat limit) (map movie_of sorted)).
  rewrite firstn_skipn.
  split; [reflexivity|]. split; [|split; [|split]].
  - unfold ascending. apply chain_map.
    assert (Hs : chain le sorted) by (apply chain_sort; intros a b; apply Htotal).
    clear -Hs. induction sorted as [|a l IH]; [exact I|].
    destruct Hs as [Hhead Htail]. split; [|now apply IH].
    destruct l as [|b l]; [exact I|].
    destruct a as [[fa ?] ?], b as [[fb ?] ?]. exact Hhead.
  - apply Permutation_map, sort_by_perm.
  - rewrite length_firstn, length_map. unfold sorted.
    now rewrite (Permutation_length (sort_by_perm le _)).
  - intros m. rewrite in_map_iff. split.
    + intros (((f & fc) & c) & <- & Hj).
      apply (Permutation_in _ (sort_by_perm _ _)) in Hj.
      apply film_join_spec in Hj. exists f, fc, c. intuition.
    + intros (f & fc & c & Hf & Hfc & Hc & E1 & E2 & ->). exists (f, fc, c).
      split; [reflexivity|].
      apply (Permutation_in _ (Permutation_sym (sort_by_perm _ _))).
      apply film_join_spec. auto.
Qed.

(** C9.  An empty search term, an empty genre and a zero year are taken as
    arguments left out. *)
Theorem search_movies_falsy_filters (search_term genre : option string) (year : option Z)
    (limit : Z) (w : world) :
  search_movies (Some "") genre year limit w = search_movies None genre year limit w
  /\ search_movies search_term (Some "") year limit w
     = search_movies search_term None year limit w
  /\ search_movies search_term genre (Some 0%Z) limit w
     = search_movies search_term genre None limit w.
Proof. repeat split. Qed.

(** ** Connections *)

Lemma quiet_ret {A : Type} (a : A) : quiet (ret a).
Proof. intros w. split; [reflexivity|]. exists []. now rewrite app_nil_r. Qed.

Lemma quiet_raise {A : Type} (e : exn) : quiet (@raise A e).
Proof. intros w. split; [reflexivity|]. exists []. now rewrite app_nil_r. Qed.

Lemma quiet_commit : quiet commit.
Proof.
  intros w. split; [reflexivity|]. exists [EvCommit]. split; [reflexivity|].
  intros [H|[]]. discriminate.
Qed.

Lemma quiet_execute {A : Type} (sql : string) (params : list pyval)
    (sem : Z -> database -> outcome (A * database)) :
  quiet (execute sql params sem).
Proof.
  intros w. unfold execute.
  destruct (sem (clock w) (view w)) as [[a d']|e]; (split; [reflexivity|]);
    exists [EvExecute sql params]; (split; [reflexivity|]);
    intros [H|[]]; discriminate.
Qed.

Lemma quiet_execute_drawing {A : Type} (sql : string) (params : list pyval)
    (sem : Z -> database -> outcome (A * database)) (seq : Z -> database -> Z) :
  quiet (execute_drawing sql params sem seq).
Proof.
  intros w. unfold execute_drawing.
  destruct (sem (clock w) (view w)) as [[a d']|e]; cbn; (split; [reflexivity|]);
    eexists; (split; [reflexivity|]); intros [H|[]]; discriminate H.
Qed.

Lemma quiet_bind {A B : Type} (m : M A) (k : A -> M B) :
  quiet m -> (forall a, quiet (k a)) -> quiet (bind m k).
Proof.
  intros Hm Hk w. unfold bind.
  destruct (Hm w) as (Hlive & evs & Hj & Hno).
  destruct (m w) as [[a|e] w1]; cbn [snd] in *.
  - destruct (Hk a w1) as (Hlive' & evs' & Hj' & Hno').
    split; [congruence|]. exists (evs ++ evs')%list.
    split; [now rewrite Hj', Hj, app_assoc|].
    intros H. apply in_app_or in H. tauto.
  - split; [exact Hlive|]. now exists evs.
Qed.

Lemma quiet_with_cursor {A : Type} (body : M A) : quiet body -> quiet (with_cursor body).
Proof.
  intros Hb w. unfold with_cursor.
  destruct (Hb (log EvCursor w)) as (Hlive & evs & Hj & Hno).
  destruct (body (log EvCursor w)) as [r w1]; cbn [snd] in *.
  split; [exact Hlive|]. exists (EvCursor :: evs ++ [EvCursorClose])%list. split.
  - cbn [journal log]. rewrite Hj. cbn [journal log]. now rewrite <- !app_assoc.
  - intros [H|H]; [discriminate|]. apply in_app_or in H as [H|[H|[]]]; [tauto | discriminate].
Qed.

Lemma quiet_execute_text (text : string) : quiet (execute_text text).
Proof.
  intros w. unfold execute_text.
  destruct (reply_of (server_run text (view w))); (split; [reflexivity|]);
    exists [EvExecute text []]; (split; [reflexivity|]);
    intros [H|[]]; discriminate.
Qed.

(** Leaving the [with] block of a connection ends the transaction and does
    not close the connection: it is gone after a return, because the
    function has ended, and still there after an exception. *)
Lemma with_connection_open_after_raising {A : Type} (body : M A) (w : world) :
  quiet body -> server_up w = true -> open_after_raising (with_connection body) w.
Proof.
  intros Hb Hup. unfold open_after_raising, with_connection, bind, get_connection.
  rewrite Hup.
  set (w1 := log EvConnect (set_live (S (live w)) (set_pending None w))).
  destruct (Hb w1) as (Hlive & evs & Hj & Hno).
  destruct (body w1) as [[a|e] w2];
    cbn [fst snd commit rollback finalize log set_pending set_committed set_live
         live journal] in *.
  - split; [now rewrite Hlive|]. exists (evs ++ [EvCommit])%list. split.
    + rewrite Hj. cbn. now rewrite <- !app_assoc.
    + intros H. apply in_app_or in H as [H|[H|[]]]; [tauto | discriminate].
  - split; [exact Hlive|]. exists (evs ++ [EvRollback])%list. split.
    + rewrite Hj. cbn. now rewrite <- !app_assoc.
    + intros H. apply in_app_or in H as [H|[H|[]]]; [tauto | discriminate].
Qed.

Ltac quiet_body :=
  unfold fetchall, fetchone;
  repeat first
    [ apply quiet_with_cursor
    | apply quiet_bind; [| intros ?]
    | apply quiet_execute
    | apply quiet_execute_drawing
    | apply quiet_execute_text
    | apply quiet_commit
    | apply quiet_ret
    | apply quiet_raise
    | match goal with |- quiet (match ?x with _ => _ end) => destruct x end ].

(** C8, as the code has it.  With the server reachable, each operation opens
    one connection and never calls [close] on it.  When the operation
    returns, the connection is gone with the end of the function.  When the
    operation raises, the connection it opened is still open: leaving the
    block has rolled back and nothing has closed it. *)
Theorem operations_leave_connection_open (w : world) :
  server_up w = true ->
  (forall schema, open_after_raising (list_tables schema) w)
  /\ (forall table_name schema, open_after_raising (describe_table table_name schema) w)
  /\ (forall query limit, accepted query ->
        open_after_raising (run_select_query query limit) w)
  /\ (forall search_term genre' year limit,
        open_after_raising (search_movies search_term genre' year limit) w)
  /\ (forall customer_id limit,
        open_after_raising (get_customer_history customer_id limit) w)
  /\ (forall customer_id inventory_id staff_id,
        open_after_raising (rent_movie customer_id inventory_id staff_id) w)
  /\ (forall rental_id, open_after_raising (return_movie rental_id) w)
  /\ (forall film_id, open_after_raising (get_available_inventory film_id) w)
  /\ (forall by_category, open_after_raising (analyze_revenue by_category) w).
Proof.
  intros Hup. repeat match goal with |- _ /\ _ => split end.
  - intros schema. apply with_connection_open_after_raising; [quiet_body | exact Hup].
  - intros table_name schema.
    apply with_connection_open_after_raising; [quiet_body | exact Hup].
  - intros query limit Hok. apply guard_test in Hok.
    unfold run_select_query. rewrite Hok. cbn [negb].
    apply with_connection_open_after_raising; [quiet_body | exact Hup].
  - intros search_term genre' year limit. unfold search_movies.
    destruct (truthy_str search_term), (truthy_str genre'), (truthy_int year);
      (apply with_connection_open_after_raising; [quiet_body | exact Hup]).
  - intros customer_id limit.
    apply with_connection_open_after_raising; [quiet_body | exact Hup].
  - intros customer_id inventory_id staff_id.
    apply with_connection_open_after_raising; [quiet_body | exact Hup].
  - intros rental_id. apply with_connection_open_after_raising; [quiet_body | exact Hup].
  - intros film_id. apply with_connection_open_after_raising; [quiet_body | exact Hup].
  - intros by_category.
    apply with_connection_open_after_raising; [destruct by_category; quiet_body | exact Hup].
Qed.

(** ** More about the guard *)

Lemma isspace_lower_char (c : ascii) : PyStr.isspace (PyStr.lower_char c) = PyStr.isspace c.
Proof. destruct c as [[] [] [] [] [] [] [] []]; reflexivity. Qed.

Lemma lstrip_by_blank_prefix (f : ascii -> bool) (pre s : string) :
  all_chars f pre = true -> PyStr.lstrip_by f (pre ++ s) = PyStr.lstrip_by f s.
Proof.
  induction pre as [|c pre IH]; simpl; [reflexivity|].
  intros H. apply andb_true_iff in H as [Hc Hpre]. rewrite Hc. now apply IH.
Qed.

Lemma rstrip_by_append (f : ascii -> bool) (a b : string) (c : ascii) :
  last_char a = Some c -> f c = false ->
  PyStr.rstrip_by f (a ++ b) = a ++ PyStr.rstrip_by f b.
Proof.
  induction a as [|x a IH]; [discriminate|].
  intros Hlast Hc. destruct a as [|y a].
  - cbn in Hlast. injection Hlast as ->. cbn [append PyStr.rstrip_by].
    destruct (PyStr.rstrip_by f b); [now rewrite Hc | reflexivity].
  - change (last_char (String x (String y a))) with (last_char (String y a)) in Hlast.
    change (String x (String y a) ++ b) with (String x (String y a ++ b)).
    cbn [PyStr.rstrip_by]. rewrite (IH Hlast Hc). reflexivity.
Qed.

(** A word that reads select, letter case apart, has six letters and no
    white space. *)
Lemma select_word (kw : string) :
  PyStr.lower kw = "select" ->
  exists c0 mid c5,
    kw = String c0 (mid ++ String c5 "")
    /\ PyStr.isspace c0 = false /\ PyStr.isspace c5 = false
    /\ last_char kw = Some c5.
Proof.
  intros H.
  destruct kw as [|c0 [|c1 [|c2 [|c3 [|c4 [|c5 [|c6 kw]]]]]]]; try discriminate H.
  injection H as H0 _ _ _ _ H5.
  exists c0, (String c1 (String c2 (String c3 (String c4 "")))), c5.
  repeat split.
  - rewrite <- isspace_lower_char, H0. reflexivity.
  - rewrite <- isspace_lower_char, H5. reflexivity.
Qed.

(** X1.  The guard lets a text through exactly when, after leading white
    space, it begins with a word that reads select in some letter case;
    what follows the word is not looked at. *)
Theorem accepted_iff_select_prefix (query : string) :
  accepted query <->
  exists pre kw rest,
    query = pre ++ kw ++ rest
    /\ all_chars PyStr.isspace pre = true
    /\ PyStr.lower kw = "select".
Proof.
  split.
  - intros (p & rest0 & Hstrip & Hp).
    destruct (strip_split query) as (l & r & Hq & Hl & _).
    exists l, p, (rest0 ++ r). split; [|split; assumption].
    rewrite Hq at 1. rewrite Hstrip. now rewrite append_assoc.
  - intros (pre & kw & rest & -> & Hpre & Hkw).
    destruct (select_word kw Hkw) as (c0 & mid & c5 & Hshape & H0 & H5 & Hlast).
    unfold accepted, starts_with_ci, PyStr.strip.
    rewrite (lstrip_by_blank_prefix _ _ _ Hpre).
    assert (Hl : PyStr.lstrip_by PyStr.isspace (kw ++ rest) = kw ++ rest).
    { rewrite Hshape. cbn [append PyStr.lstrip_by]. now rewrite H0. }
    rewrite Hl, (rstrip_by_append _ _ _ _ Hlast H5).
    exists kw, (PyStr.rstrip_by PyStr.isspace rest). split; [reflexivity | exact Hkw].
Qed.

(** ** Outcomes, transactions and failures *)

Ltac unfold_catalog :=
  unfold list_tables, describe_table, search_movies, get_customer_history, rent_movie,
    return_movie, get_available_inventory, analyze_revenue,
    select_tables, select_columns, select_history, select_open_rental, insert_rental,
    select_return_date, update_return_date, select_available,
    select_revenue_by_category, select_revenue_by_store;
  run_driver.

(** X2.  For an accepted text and a reachable server, [run_select_query]
    hands the limited statement to the server.  When the server answers with
    rows, they are returned and the view of the transaction is committed.
    When the server runs the text and gives no result set, fetching raises
    [ProgrammingError]; when the server rejects the text, [DatabaseError] is
    raised.  Either way the transaction is then rolled back, and the
    committed database is what the text itself had made durable. *)
Theorem run_select_query_passes_through (query : string) (limit : Z) (w : world) :
  accepted query -> server_up w = true ->
  let a := server_run (limited_query query limit) (committed w) in
  let result := run_select_query query limit w in
  match reply_of a with
  | Rows rows =>
      fst result = Returned rows
      /\ committed (snd result) = view_after a
      /\ journal (snd result)
         = (journal w ++ [EvConnect; EvCursor; EvExecute (limited_query query limit) [];
                          EvCursorClose; EvCommit])%list
  | NoRows =>
      fst result = Raised ProgrammingError
      /\ committed (snd result) = durable a
      /\ journal (snd result)
         = (journal w ++ [EvConnect; EvCursor; EvExecute (limited_query query limit) [];
                          EvCursorClose; EvRollback])%list
  | Rejected =>
      fst result = Raised DatabaseError
      /\ committed (snd result) = durable a
      /\ journal (snd result)
         = (journal w ++ [EvConnect; EvCursor; EvExecute (limited_query query limit) [];
                          EvCursorClose; EvRollback])%list
  end.
Proof.
  intros Hok Hup a result. subst a result.
  apply guard_test in Hok. unfold run_select_query. rewrite Hok.
  cbn [negb]. run_driver. rewrite Hup. cbn -[limited_query].
  destruct (reply_of (server_run (limited_query query limit) (committed w)));
    cbn -[limited_query]; repeat split; now rewrite <- !app_assoc.
Qed.

(** X3.  With the server out of reach every operation raises
    [OperationalError] and leaves the world as it was (for
    [run_select_query], once the guard has let the text through). *)
Theorem unreachable_server (w : world) :
  server_up w = false ->
  (forall schema, list_tables schema w = (Raised OperationalError, w))
  /\ (forall table_name schema,
        describe_table table_name schema w = (Raised OperationalError, w))
  /\ (forall query limit, accepted query ->
        run_select_query query limit w = (Raised OperationalError, w))
  /\ (forall search_term genre' year limit,
        search_movies search_term genre' year limit w = (Raised OperationalError, w))
  /\ (forall customer_id limit,
        get_customer_history customer_id limit w = (Raised OperationalError, w))
  /\ (forall customer_id inventory_id staff_id,
        rent_movie customer_id inventory_id staff_id w = (Raised OperationalError, w))
  /\ (forall rental_id, return_movie rental_id w = (Raised OperationalError, w))
  /\ (forall film_id, get_available_inventory film_id w = (Raised OperationalError, w))
  /\ (forall by_category, analyze_revenue by_category w = (Raised OperationalError, w)).
Proof.
  intros Hdown. repeat match goal with |- _ /\ _ => split end; intros;
    try (unfold_catalog; rewrite Hdown; reflexivity).
  - match goal with H : accepted _ |- _ => apply guard_test in H; rename H into Hok end.
    unfold run_select_query. rewrite Hok. cbn [negb]. run_driver. now rewrite Hdown.
  - unfold search_movies.
    destruct (truthy_str search_term), (truthy_str genre'), (truthy_int year);
      run_driver; now rewrite Hdown.
Qed.

(** X4.  The six operations that only read never change the committed
    database, whatever the state of the server and whatever they return or
    raise. *)
Theorem reading_operations_change_nothing (w : world) :
  (forall schema, committed (snd (list_tables schema w)) = committed w)
  /\ (forall table_name schema,
        committed (snd (describe_table table_name schema w)) = committed w)
  /\ (forall search_term genre' year limit,
        committed (snd (search_movies search_term genre' year limit w)) = committed w)
  /\ (forall customer_id limit,
        committed (snd (get_customer_history customer_id limit w)) = committed w)
  /\ (forall film_id, committed (snd (get_available_inventory film_id w)) = committed w)
  /\ (forall by_category, committed (snd (analyze_revenue by_category w)) = committed w).
Proof.
  repeat match goal with |- _ /\ _ => split end; intros.
  - unfold_catalog. destruct (server_up w); reflexivity.
  - unfold_catalog. destruct (server_up w); reflexivity.
  - unfold search_movies, select_movies, limit_rows.
    destruct (truthy_str search_term), (truthy_str genre'), (truthy_int year);
      run_driver; destruct (server_up w); try reflexivity; simpl_world;
      destruct ((limit <? 0)%Z || (2 ^ 63 <=? limit)%Z); reflexivity.
  - unfold_catalog. unfold limit_rows. destruct (server_up w); [|reflexivity].
    simpl_world. destruct ((limit <? 0)%Z || (2 ^ 63 <=? limit)%Z); reflexivity.
  - unfold_catalog. destruct (server_up w); reflexivity.
  - unfold_catalog. destruct (server_up w), by_category; reflexivity.
Qed.

(** ** Renting and returning, one call after another *)

Lemma existsb_find {A : Type} (f : A -> bool) (l : list A) :
  existsb f l = match find f l with Some _ => true | None => false end.
Proof.
  induction l as [|x l IH]; simpl; [reflexivity|]. destruct (f x); [reflexivity | exact IH].
Qed.

Lemma in_open_inventory_ids (inventory_id : Z) (d : database) :
  In inventory_id (open_inventory_ids d) <-> has_open_rental inventory_id d = true.
Proof.
  unfold open_inventory_ids, has_open_rental. rewrite in_map_iff, existsb_exists. split.
  - intros (r & Hid & Hr). apply filter_In in Hr as [Hin Hopen].
    exists r. split; [exact Hin|]. now rewrite Hid, Z.eqb_refl.
  - intros (r & Hin & Hr). apply andb_true_iff in Hr as [Hid Hopen].
    apply Z.eqb_eq in Hid. exists r. split; [exact Hid|]. now apply filter_In.
Qed.

Lemma has_open_rental_iff (inventory_id : Z) (d : database) :
  has_open_rental inventory_id d = true <->
  exists r, In r (rental d) /\ open_rental_of inventory_id r.
Proof.
  unfold has_open_rental, open_rental_of, is_open. rewrite existsb_exists.
  split; intros (r & Hin & Hr); exists r; (split; [exact Hin|]).
  - apply andb_true_iff in Hr as [Hid Hopen]. apply Z.eqb_eq in Hid.
    destruct (r_return_date r); [discriminate | now split].
  - destruct Hr as [-> ->]. now rewrite Z.eqb_refl.
Qed.

(** What [rent_movie] returns and leaves behind, on a reachable server. *)
Lemma rent_movie_run (customer_id inventory_id staff_id : Z) (w : world) :
  server_up w = true ->
  fst (rent_movie customer_id inventory_id staff_id w)
  = (if has_open_rental inventory_id (committed w)
     then Returned (already_rented_out inventory_id)
     else if admits (new_rental inventory_id customer_id staff_id (clock w) (committed w))
               (committed w)
          then Returned (successfully_rented (rental_id_seq (committed w) + 1))
          else Raised DatabaseError)
  /\ committed (snd (rent_movie customer_id inventory_id staff_id w))
     = (if has_open_rental inventory_id (committed w)
        then committed w
        else if admits (new_rental inventory_id customer_id staff_id (clock w) (committed w))
                  (committed w)
             then rented customer_id inventory_id staff_id (clock w) (committed w)
             else refused customer_id inventory_id staff_id (clock w) (committed w))
  /\ server_up (snd (rent_movie customer_id inventory_id staff_id w)) = true
  /\ clock (snd (rent_movie customer_id inventory_id staff_id w)) = clock w.
Proof.
  intros Hup. unfold has_open_rental. rewrite existsb_find.
  unfold rent_movie, select_open_rental, rented, refused, insert_rental, new_view. run_driver.
  rewrite Hup. simpl_world. rewrite fetchone_filter.
  destruct (find _ (rental (committed w))); simpl_world.
  - cbn -[String.append PyStr.str_of_int]. repeat split. exact Hup.
  - destruct (admits _ (committed w));
      cbn -[String.append PyStr.str_of_int]; repeat split; exact Hup.
Qed.

(** What [return_movie] returns and leaves behind when it goes through. *)
Lemma return_movie_run (rental_id : Z) (w : world) (r0 : rental_row) :
  server_up w = true ->
  rental_with rental_id (committed w) = Some r0 ->
  r_return_date r0 = None ->
  fst (return_movie rental_id w) = Returned (successfully_returned rental_id)
  /\ committed (snd (return_movie rental_id w)) = returned rental_id (clock w) (committed w)
  /\ server_up (snd (return_movie rental_id w)) = true
  /\ clock (snd (return_movie rental_id w)) = clock w.
Proof.
  intros Hup Hrow Hopen. unfold rental_with in Hrow.
  unfold return_movie, select_return_date, returned, update_return_date, new_view.
  run_driver.
  rewrite Hup. simpl_world. rewrite fetchone_filter, Hrow. simpl_world. rewrite Hopen.
  cbn -[String.append PyStr.str_of_int]. repeat split. exact Hup.
Qed.

Lemma get_available_inventory_outcome (film_id : Z) (w : world) :
  server_up w = true ->
  fst (get_available_inventory film_id w) = select_available film_id (committed w).
Proof.
  intros Hup. unfold get_available_inventory, select_available. run_driver.
  now rewrite Hup.
Qed.

Lemma select_available_iff (film_id : Z) (d : database) (a : available) :
  In a (map available_of
          (filter (fun i => (i_film_id i =? film_id)%Z
                            && negb (existsb (Z.eqb (i_inventory_id i)) (open_inventory_ids d)))
             (inventory d)))
  <->
  exists i, In i (inventory d) /\ i_film_id i = film_id /\ a = available_of i
            /\ has_open_rental (i_inventory_id i) d = false.
Proof.
  assert (Hex : forall x, existsb (Z.eqb x) (open_inventory_ids d) = has_open_rental x d).
  { intros x. apply eq_true_iff_eq. rewrite <- in_open_inventory_ids, existsb_exists. split.
    - intros (y & Hy & Hxy). apply Z.eqb_eq in Hxy. now subst y.
    - intros Hx. exists x. split; [exact Hx | apply Z.eqb_refl]. }
  rewrite in_map_iff. split.
  - intros (i & <- & Hi). apply filter_In in Hi as [Hin Hcond].
    apply andb_true_iff in Hcond as [Hfilm Hfree].
    apply Z.eqb_eq in Hfilm. apply negb_true_iff in Hfree. rewrite Hex in Hfree.
    exists i. repeat split; assumption.
  - intros (i & Hin & Hfilm & -> & Hfree). exists i. split; [reflexivity|].
    apply filter_In. split; [exact Hin|].
    rewrite Hex, Hfree. apply Z.eqb_eq in Hfilm. now rewrite Hfilm.
Qed.

Lemma NoDup_snoc {A : Type} (l : list A) (x : A) :
  NoDup l -> ~ In x l -> NoDup (l ++ [x]).
Proof.
  induction l as [|y l IH]; intros Hl Hx; simpl.
  - constructor; [intros [] | constructor].
  - inversion Hl as [|? ? Hy Hl']; subst. constructor.
    + intros H. apply in_app_or in H as [H|[H|[]]]; [contradiction|].
      subst. apply Hx. now left.
    + apply IH; [exact Hl'|]. intros H. apply Hx. now right.
Qed.

Lemma open_ids_rented (customer_id inventory_id staff_id now : Z) (d : database) :
  admits (new_rental inventory_id customer_id staff_id now d) d = true ->
  open_inventory_ids (rented customer_id inventory_id staff_id now d)
  = (open_inventory_ids d ++ [inventory_id])%list.
Proof.
  intros Hadmits. unfold open_inventory_ids, rented, insert_rental, new_view.
  rewrite Hadmits. cbn [rental with_rental]. now rewrite filter_app, map_app.
Qed.

Lemma open_ids_refused (customer_id inventory_id staff_id now : Z) (d : database) :
  open_inventory_ids (refused customer_id inventory_id staff_id now d)
  = open_inventory_ids d.
Proof. reflexivity. Qed.

Lemma open_ids_returned_incl (rental_id now : Z) (rows : list rental_row) (x : Z) :
  In x (map r_inventory_id
          (filter is_open
             (map (fun r => if (r_rental_id r =? rental_id)%Z
                            then set_return_date now r else r) rows))) ->
  In x (map r_inventory_id (filter is_open rows)).
Proof.
  induction rows as [|r rows IH]; [auto|]. cbn [map filter].
  destruct (r_rental_id r =? rental_id)%Z.
  - cbn [is_open set_return_date r_return_date]. intros H.
    destruct (is_open r); [right|]; now apply IH.
  - destruct (is_open r); cbn [map]; [|exact IH].
    intros [H|H]; [now left | right; now apply IH].
Qed.

Lemma open_ids_returned_nodup (rental_id now : Z) (rows : list rental_row) :
  NoDup (map r_inventory_id (filter is_open rows)) ->
  NoDup (map r_inventory_id
           (filter is_open
              (map (fun r => if (r_rental_id r =? rental_id)%Z
                             then set_return_date now r else r) rows))).
Proof.
  induction rows as [|r rows IH]; [auto|]. cbn [map filter].
  destruct (r_rental_id r =? rental_id)%Z.
  - cbn [is_open set_return_date r_return_date]. intros H.
    apply IH. destruct (is_open r); [now inversion H | exact H].
  - destruct (is_open r); cbn [map]; [|exact IH].
    intros H. inversion H as [|? ? Hx Hrest]; subst. constructor; [|now apply IH].
    intros Hin. apply Hx. now apply open_ids_returned_incl in Hin.
Qed.

Lemma rent_movie_committed (customer_id inventory_id staff_id : Z) (w : world) :
  open_inventory_ids (committed (snd (rent_movie customer_id inventory_id staff_id w)))
  = open_inventory_ids (committed w)
  \/ (has_open_rental inventory_id (committed w) = false
      /\ open_inventory_ids (committed (snd (rent_movie customer_id inventory_id staff_id w)))
         = (open_inventory_ids (committed w) ++ [inventory_id])%list).
Proof.
  destruct (server_up w) eqn:Hup.
  - destruct (rent_movie_run customer_id inventory_id staff_id w Hup) as (_ & Hdb & _).
    rewrite Hdb. destruct (has_open_rental inventory_id (committed w)); [now left|].
    destruct (admits (new_rental inventory_id customer_id staff_id (clock w) (committed w))
                (committed w)) eqn:Hadmits.
    + right. split; [reflexivity|]. now apply open_ids_rented.
    + left. apply open_ids_refused.
  - left. unfold rent_movie. run_driver. now rewrite Hup.
Qed.

Lemma return_movie_committed (rental_id : Z) (w : world) :
  committed (snd (return_movie rental_id w)) = committed w
  \/ committed (snd (return_movie rental_id w)) = returned rental_id (clock w) (committed w).
Proof.
  unfold return_movie, select_return_date, returned, update_return_date, new_view.
  run_driver. destruct (server_up w); [|now left].
  simpl_world.
  destruct (hd_error _) as [[t|]|]; cbn -[String.append PyStr.str_of_int];
    [now left | now right | now left].
Qed.

(** X5.  If no item is out on two open rentals at once, that is still so
    after [rent_movie] and after [return_movie], whatever their arguments
    and outcome. *)
Theorem rentals_keep_one_open_rental_per_item (w : world) :
  one_open_rental_per_item (committed w) ->
  (forall customer_id inventory_id staff_id,
     one_open_rental_per_item
       (committed (snd (rent_movie customer_id inventory_id staff_id w))))
  /\ (forall rental_id,
        one_open_rental_per_item (committed (snd (return_movie rental_id w)))).
Proof.
  intros Hinv. split.
  - intros customer_id inventory_id staff_id.
    unfold one_open_rental_per_item in *.
    destruct (rent_movie_committed customer_id inventory_id staff_id w)
      as [-> | (Hfree & ->)]; [exact Hinv|].
    apply NoDup_snoc; [exact Hinv|].
    rewrite in_open_inventory_ids, Hfree. discriminate.
  - intros rental_id.
    destruct (return_movie_committed rental_id w) as [-> | ->]; [exact Hinv|].
    unfold one_open_rental_per_item, open_inventory_ids, returned, update_return_date,
      new_view. cbn [rental with_rental].
    now apply open_ids_returned_nodup.
Qed.

Lemma has_open_rental_rented (customer_id inventory_id staff_id now : Z) (d : database) :
  admits (new_rental inventory_id customer_id staff_id now d) d = true ->
  has_open_rental inventory_id (rented customer_id inventory_id staff_id now d) = true.
Proof.
  intros Hadmits. apply in_open_inventory_ids. rewrite open_ids_rented by exact Hadmits.
  apply in_or_app. right. now left.
Qed.

Lemma has_open_rental_after_rent (customer_id inventory_id staff_id : Z) (w : world)
    (msg : string) :
  server_up w = true ->
  fst (rent_movie customer_id inventory_id staff_id w) = Returned msg ->
  has_open_rental inventory_id
    (committed (snd (rent_movie customer_id inventory_id staff_id w))) = true.
Proof.
  intros Hup Hmsg.
  destruct (rent_movie_run customer_id inventory_id staff_id w Hup) as (Hret & Hdb & _).
  rewrite Hdb. rewrite Hret in Hmsg.
  destruct (has_open_rental inventory_id (committed w)) eqn:E; [exact E|].
  destruct (admits (new_rental inventory_id customer_id staff_id (clock w) (committed w))
              (committed w)) eqn:Hadmits; [|discriminate Hmsg].
  now apply has_open_rental_rented.
Qed.

(** X6.  When [rent_movie] has returned for an item on a reachable server,
    with either text, the next [rent_movie] for that item is refused,
    whoever asks. *)
Theorem rent_movie_twice (customer_id inventory_id staff_id customer_id' staff_id' : Z)
    (w : world) (msg : string) :
  server_up w = true ->
  fst (rent_movie customer_id inventory_id staff_id w) = Returned msg ->
  fst (rent_movie customer_id' inventory_id staff_id'
         (snd (rent_movie customer_id inventory_id staff_id w)))
  = Returned (already_rented_out inventory_id).
Proof.
  intros Hup Hmsg.
  assert (Hopen := has_open_rental_after_rent customer_id inventory_id staff_id w msg
                     Hup Hmsg).
  destruct (rent_movie_run customer_id inventory_id staff_id w Hup) as (_ & _ & Hup' & _).
  destruct (rent_movie_run customer_id' inventory_id staff_id' _ Hup') as (Hret & _).
  now rewrite Hret, Hopen.
Qed.

(** X7.  When [rent_movie] has returned for an item on a reachable server,
    with either text, [get_available_inventory] does not list that item, for
    any film. *)
Theorem rented_item_is_not_available (customer_id inventory_id' staff_id film_id : Z)
    (w : world) (msg : string) :
  server_up w = true ->
  fst (rent_movie customer_id inventory_id' staff_id w) = Returned msg ->
  exists rows,
    fst (get_available_inventory film_id
           (snd (rent_movie customer_id inventory_id' staff_id w))) = Returned rows
    /\ forall a, In a rows -> inventory_id a <> inventory_id'.
Proof.
  intros Hup Hmsg.
  assert (Hopen := has_open_rental_after_rent customer_id inventory_id' staff_id w msg
                     Hup Hmsg).
  destruct (rent_movie_run customer_id inventory_id' staff_id w Hup) as (_ & _ & Hup' & _).
  rewrite (get_available_inventory_outcome film_id _ Hup'). unfold select_available.
  eexists. split; [reflexivity|]. intros a Ha.
  apply (select_available_iff film_id _ a) in Ha as (i & _ & _ & -> & Hfree).
  cbn [available_of inventory_id]. intros Heq. rewrite Heq in Hfree. congruence.
Qed.

(** X8.  On a reachable server [get_available_inventory] returns exactly the
    inventory rows of the film whose item has no open rental, each as its
    identifier and store. *)
Theorem get_available_inventory_exact (film_id : Z) (w : world) :
  server_up w = true ->
  exists rows,
    fst (get_available_inventory film_id w) = Returned rows
    /\ forall a,
         In a rows <->
         exists i, In i (inventory (committed w)) /\ i_film_id i = film_id
                   /\ a = available_of i
                   /\ ~ (exists r, In r (rental (committed w))
                                   /\ open_rental_of (i_inventory_id i) r).
Proof.
  intros Hup. rewrite (get_available_inventory_outcome film_id w Hup).
  unfold select_available. eexists. split; [reflexivity|]. intros a.
  rewrite (select_available_iff film_id (committed w) a).
  split; intros (i & Hin & Hfilm & Ha & Hfree); exists i; repeat split; try assumption.
  - rewrite <- has_open_rental_iff, Hfree. discriminate.
  - rewrite <- has_open_rental_iff in Hfree.
    destruct (has_open_rental (i_inventory_id i) (committed w)); [now elim Hfree | reflexivity].
Qed.

Lemma rental_with_returned (rental_id now : Z) (d : database) (r0 : rental_row) :
  rental_with rental_id d = Some r0 ->
  rental_with rental_id (returned rental_id now d) = Some (set_return_date now r0).
Proof.
  unfold rental_with, returned, update_return_date, new_view. cbn [rental with_rental].
  induction (rental d) as [|r rows IH]; [discriminate|]. cbn [find map].
  destruct (r_rental_id r =? rental_id)%Z eqn:E.
  - intros [= ->]. cbn [set_return_date r_rental_id]. now rewrite E.
  - rewrite E. exact IH.
Qed.

(** What [return_movie] does with a rental that is back already. *)
Lemma return_movie_refused (rental_id : Z) (w : world) (r0 : rental_row) (back : Z) :
  server_up w = true ->
  rental_with rental_id (committed w) = Some r0 ->
  r_return_date r0 = Some back ->
  fst (return_movie rental_id w)
  = Returned ("Error: Rental ID " ++ PyStr.str_of_int rental_id
              ++ " already returned on " ++ str_of_datetime back ++ ".")
  /\ committed (snd (return_movie rental_id w)) = committed w.
Proof.
  intros Hup Hrow Hback. unfold rental_with in Hrow.
  unfold return_movie, select_return_date. run_driver.
  rewrite Hup. cbn [fst snd view pending set_pending log set_live clock committed].
  rewrite fetchone_filter, Hrow. cbn [option_map]. rewrite Hback.
  cbn -[String.append PyStr.str_of_int]. split; reflexivity.
Qed.

(** X9.  When [return_movie] has gone through for a rental, a second call
    for the same rental is refused with the date the first one set, and
    changes nothing. *)
Theorem return_movie_twice (rental_id : Z) (w : world) (r0 : rental_row) :
  server_up w = true ->
  rental_with rental_id (committed w) = Some r0 ->
  r_return_date r0 = None ->
  let w1 := snd (return_movie rental_id w) in
  fst (return_movie rental_id w1)
  = Returned ("Error: Rental ID " ++ PyStr.str_of_int rental_id
              ++ " already returned on " ++ str_of_datetime (clock w) ++ ".")
  /\ committed (snd (return_movie rental_id w1)) = committed w1.
Proof.
  intros Hup Hrow Hopen w1. subst w1.
  destruct (return_movie_run rental_id w r0 Hup Hrow Hopen) as (_ & Hdb & Hup' & _).
  apply (return_movie_refused rental_id _ (set_return_date (clock w) r0));
    [exact Hup' | | reflexivity].
  rewrite Hdb. now apply rental_with_returned.
Qed.

(** X10.  When [return_movie] goes through for a rental and the item of an
    inventory row has no open rental under another identifier, that row is
    listed by [get_available_inventory] for its film afterwards. *)
Theorem returned_item_is_available (rental_id : Z) (w : world) (r0 : rental_row)
    (i : inventory_row) :
  server_up w = true ->
  rental_with rental_id (committed w) = Some r0 ->
  r_return_date r0 = None ->
  In i (inventory (committed w)) ->
  (forall r, In r (rental (committed w)) ->
             open_rental_of (i_inventory_id i) r -> r_rental_id r = rental_id) ->
  exists rows,
    fst (get_available_inventory (i_film_id i) (snd (return_movie rental_id w)))
    = Returned rows
    /\ In (available_of i) rows.
Proof.
  intros Hup Hrow Hopen Hin Honly.
  destruct (return_movie_run rental_id w r0 Hup Hrow Hopen) as (_ & Hdb & Hup' & _).
  rewrite (get_available_inventory_outcome _ _ Hup'). unfold select_available.
  eexists. split; [reflexivity|].
  apply (select_available_iff (i_film_id i) _ (available_of i)).
  exists i. rewrite Hdb. split; [exact Hin|]. split; [reflexivity|]. split; [reflexivity|].
  destruct (has_open_rental (i_inventory_id i) (returned rental_id (clock w) (committed w)))
    eqn:E; [|reflexivity].
  exfalso. apply has_open_rental_iff in E as (r & Hr & Hitem & Hnull).
  unfold returned, update_return_date, new_view in Hr. cbn [rental with_rental] in Hr.
  apply in_map_iff in Hr as (r' & Hr' & Hin').
  destruct (r_rental_id r' =? rental_id)%Z eqn:Eid.
  - subst r. discriminate Hnull.
  - subst r'. apply Z.eqb_neq in Eid. apply Eid.
    apply (Honly r Hin'). now split.
Qed.

(** ** Pages of search results *)

Lemma search_movies_unreachable (search_term genre' : option string) (year : option Z)
    (limit : Z) (w : world) :
  server_up w = false ->
  search_movies search_term genre' year limit w = (Raised OperationalError, w).
Proof.
  intros Hdown. unfold search_movies.
  destruct (truthy_str search_term), (truthy_str genre'), (truthy_int year);
    run_driver; now rewrite Hdown.
Qed.

Lemma chain_titles (l : list joined) :
  chain (fun a b => collate_le (f_title (fst (fst a))) (f_title (fst (fst b)))) l ->
  chain (fun a b => collate_le (title (movie_of a)) (title (movie_of b))) l.
Proof.
  induction l as [|a l IH]; [intros _; exact I|].
  intros [Hhead Htail]. split; [|now apply IH].
  destruct l as [|b l]; [exact I|].
  destruct a as [[fa ?] ?], b as [[fb ?] ?]. exact Hhead.
Qed.

Lemma select_movies_page (where_ : list (joined -> bool)) (limit : Z) (d : database) :
  (0 <= limit < 2 ^ 63)%Z ->
  (forall a b, collate_le a b = true \/ collate_le b a = true) ->
  exists rows,
    select_movies where_ limit d = Returned rows
    /\ ascending rows
    /\ length rows
       = Nat.min (Z.to_nat limit)
           (length (filter (fun j => forallb (fun cond => cond j) where_) (film_join d)))
    /\ exists rest,
         Permutation (rows ++ rest)%list
           (map movie_of (filter (fun j => forallb (fun cond => cond j) where_) (film_join d))).
Proof.
  intros Hlimit Htotal. unfold select_movies.
  rewrite limit_rows_in_range by lia.
  set (found := filter _ (film_join d)).
  set (le := fun a b : joined => collate_le (f_title (fst (fst a))) (f_title (fst (fst b)))).
  eexists. split; [reflexivity|]. split; [|split].
  - unfold ascending. apply chain_firstn, chain_map, chain_titles.
    apply chain_sort. intros a b. apply Htotal.
  - rewrite length_firstn, length_map. now rewrite (Permutation_length (sort_by_perm le _)).
  - exists (skipn (Z.to_nat limit) (map movie_of (sort_by le found))).
    rewrite firstn_skipn. apply Permutation_map, sort_by_perm.
Qed.

(** X11.  Whatever the filters, on a reachable server and with a limit that
    is not negative and fits a signed 64-bit integer, [search_movies]
    returns its rows in ascending order of title (for a collation that
    compares any two titles) and never more of them than the limit. *)
Theorem search_movies_ordered_and_capped (search_term genre' : option string)
    (year : option Z) (limit : Z) (w : world) :
  server_up w = true -> (0 <= limit < 2 ^ 63)%Z ->
  (forall a b, collate_le a b = true \/ collate_le b a = true) ->
  exists rows,
    fst (search_movies search_term genre' year limit w) = Returned rows
    /\ ascending rows
    /\ (Z.of_nat (length rows) <= limit)%Z.
Proof.
  clear server_run str_of_datetime.
  intros Hup Hlimit Htotal. rewrite (search_movies_outcome _ _ _ _ _ Hup).
  destruct (select_movies_page (conjuncts search_term genre' year) limit (committed w)
              Hlimit Htotal) as (rows & Hret & Hasc & Hlen & _).
  exists rows. split; [exact Hret|]. split; [exact Hasc|]. lia.
Qed.

(** X12.  When the limit fits a signed 64-bit integer and is at least the
    number of rows of the join that pass the filters (the patterns compared
    under the case folding of the database), [search_movies] returns them
    all: its rows are those matching rows, each as often as the join has it,
    in another order at most. *)
Theorem search_movies_complete (search_term genre' : option string)
    (year : option Z) (limit : Z) (w : world) :
  server_up w = true ->
  (Z.of_nat (length (matching search_term genre' year (committed w))) <= limit < 2 ^ 63)%Z ->
  exists rows,
    fst (search_movies search_term genre' year limit w) = Returned rows
    /\ Permutation rows (map movie_of (matching search_term genre' year (committed w))).
Proof.
  clear server_run str_of_datetime.
  intros Hup Hlimit. rewrite (search_movies_outcome _ _ _ _ _ Hup).
  unfold select_movies, matching in *.
  rewrite limit_rows_in_range by lia.
  eexists. split; [reflexivity|].
  rewrite firstn_all2.
  - apply Permutation_map, sort_by_perm.
  - rewrite length_map, (Permutation_length (sort_by_perm _ _)). lia.
Qed.

Lemma all_percent_matches (p t : string) :
  all_chars is_percent p = true -> p <> "" -> ilike_match p t = true.
Proof.
  revert t; induction p as [|c p IH]; intros t Hp Hne; [contradiction|].
  cbn [all_chars] in Hp. apply andb_true_iff in Hp as [Hc Hp].
  apply Ascii.eqb_eq in Hc. subst c. apply ilike_percent_iff.
  destruct p as [|c' p'].
  - exists t, "". split; [now rewrite append_nil_r | reflexivity].
  - exists "", t. split; [reflexivity|]. apply IH; [exact Hp | discriminate].
Qed.

Lemma all_percent_append (a b : string) :
  all_chars is_percent a = true -> all_chars is_percent b = true ->
  all_chars is_percent (a ++ b) = true.
Proof.
  induction a as [|c a IH]; [auto|]. cbn [append all_chars].
  intros Ha Hb. apply andb_true_iff in Ha as [Hc Ha]. now rewrite Hc, IH.
Qed.

Lemma select_movies_skip (cond : joined -> bool) (where_ : list (joined -> bool))
    (limit : Z) (d : database) :
  (forall j, cond j = true) ->
  select_movies (cond :: where_) limit d = select_movies where_ limit d.
Proof.
  intros Hcond. unfold select_movies. f_equal. f_equal. f_equal.
  apply filter_ext. intros j. cbn [forallb]. now rewrite Hcond.
Qed.

(** X13.  A search term made of percent signs only filters nothing:
    [search_movies] returns what it returns without a search term. *)
Theorem search_movies_percent_term (s : string) (genre' : option string) (year : option Z)
    (limit : Z) (w : world) :
  all_chars is_percent s = true -> s <> "" ->
  fst (search_movies (Some s) genre' year limit w)
  = fst (search_movies None genre' year limit w).
Proof.
  clear server_run str_of_datetime.
  intros Hs Hne. destruct (server_up w) eqn:Hup.
  - rewrite !(search_movies_outcome _ _ _ _ _ Hup). unfold conjuncts.
    rewrite (truthy_str_some s Hne). cbn [truthy_str app].
    apply select_movies_skip. intros [[f fc] c]. cbn [title_or_description_ilike].
    unfold ilike. rewrite all_percent_matches; [reflexivity | | discriminate].
    change ("%" ++ s ++ "%") with (String "%" (s ++ "%")). cbn [all_chars].
    rewrite all_percent_append; [reflexivity | exact Hs | reflexivity].
  - now rewrite !search_movies_unreachable by exact Hup.
Qed.

Lemma get_customer_history_outcome (customer_id limit : Z) (w : world) :
  server_up w = true ->
  fst (get_customer_history customer_id limit w)
  = select_history customer_id limit (committed w).
Proof.
  intros Hup. unfold get_customer_history. run_driver. rewrite Hup.
  cbn [fst snd view pending set_pending log set_live clock committed].
  destruct (select_history customer_id limit (committed w)); reflexivity.
Qed.

(** X14.  A negative limit makes [search_movies] and [get_customer_history]
    raise [DatabaseError] on a reachable server; a limit of zero makes them
    return no row. *)
Theorem limit_edges (search_term genre' : option string) (year : option Z)
    (customer_id limit : Z) (w : world) :
  server_up w = true ->
  ((limit < 0)%Z ->
   fst (search_movies search_term genre' year limit w) = Raised DatabaseError
   /\ fst (get_customer_history customer_id limit w) = Raised DatabaseError)
  /\ (limit = 0%Z ->
      fst (search_movies search_term genre' year limit w) = Returned []
      /\ fst (get_customer_history customer_id limit w) = Returned []).
Proof.
  intros Hup. rewrite (search_movies_outcome _ _ _ _ _ Hup).
  rewrite (get_customer_history_outcome _ _ _ Hup).
  unfold select_movies, select_history, limit_rows. split.
  - intros Hneg. apply Z.ltb_lt in Hneg. rewrite Hneg. split; reflexivity.
  - intros ->. split; reflexivity.
Qed.

(** ** Grouping and summing *)

Lemma sum_Z_app (a b : list Z) : sum_Z (a ++ b) = (sum_Z a + sum_Z b)%Z.
Proof. induction a as [|x a IH]; cbn [app sum_Z fold_right] in *; [reflexivity | fold (sum_Z (a ++ b)); fold (sum_Z a); lia]. Qed.

Lemma sum_Z_perm (a b : list Z) : Permutation a b -> sum_Z a = sum_Z b.
Proof.
  induction 1 as [|x a b _ IH|x y a|a b c _ IH1 _ IH2]; unfold sum_Z in *; cbn [fold_right];
    lia.
Qed.

Section Grouping.

Context {K : Type} (same : K -> K -> bool).
Hypothesis same_eq : forall a b, same a b = true <-> a = b.

Lemma same_refl (k : K) : same k k = true.
Proof using same_eq. now apply same_eq. Qed.

Lemma amount_of_add_to (k k' : K) (v : Z) (acc : list (K * Z)) :
  amount_of same k' (add_to same k v acc)
  = (amount_of same k' acc + (if same k' k then v else 0))%Z.
Proof using same_eq.
  induction acc as [|[k0 t0] acc IH]; cbn [add_to amount_of].
  - destruct (same k' k); lia.
  - destruct (same k k0) eqn:E; cbn [amount_of].
    + apply same_eq in E. subst k0. destruct (same k' k); lia.
    + destruct (same k' k0) eqn:E'; [|exact IH].
      apply same_eq in E'. subst k0.
      destruct (same k' k) eqn:E''; [|lia].
      apply same_eq in E''. subst k'. rewrite same_refl in E. discriminate.
Qed.

Lemma amount_of_fold (k : K) (rows acc : list (K * Z)) :
  amount_of same k
    (fold_left (fun acc row => add_to same (fst row) (snd row) acc) rows acc)
  = (amount_of same k acc + paid_for same k rows)%Z.
Proof using same_eq.
  revert acc; induction rows as [|[k0 v0] rows IH]; intros acc; cbn [fold_left].
  - unfold paid_for. cbn. lia.
  - rewrite IH, amount_of_add_to. unfold paid_for. cbn [filter fst snd].
    destruct (same k k0); cbn [map sum_Z fold_right snd];
      fold (sum_Z (map snd (filter (fun row => same k (fst row)) rows))); lia.
Qed.

Lemma keys_add_to (k : K) (v : Z) (acc : list (K * Z)) :
  map fst (add_to same k v acc)
  = if existsb (same k) (map fst acc) then map fst acc else (map fst acc ++ [k])%list.
Proof using Type.
  induction acc as [|[k0 t0] acc IH]; cbn [add_to map existsb fst app]; [reflexivity|].
  destruct (same k k0); cbn [map fst orb]; [reflexivity|].
  rewrite IH. destruct (existsb (same k) (map fst acc)); reflexivity.
Qed.

Lemma keys_add_to_in (k k' : K) (v : Z) (acc : list (K * Z)) :
  In k' (map fst (add_to same k v acc)) <-> k' = k \/ In k' (map fst acc).
Proof using same_eq.
  clear collate_le server_run str_of_datetime.
  rewrite keys_add_to. destruct (existsb (same k) (map fst acc)) eqn:E.
  - apply existsb_exists in E as (x & Hx & Hkx). apply same_eq in Hkx. subst x.
    split; [now right | intros [->|H]; assumption].
  - rewrite in_app_iff. cbn [In]. intuition.
Qed.

Lemma keys_add_to_nodup (k : K) (v : Z) (acc : list (K * Z)) :
  NoDup (map fst acc) -> NoDup (map fst (add_to same k v acc)).
Proof using same_eq.
  intros H. rewrite keys_add_to. destruct (existsb (same k) (map fst acc)) eqn:E; [exact H|].
  apply NoDup_snoc; [exact H|]. intros Hin.
  assert (Hex : existsb (same k) (map fst acc) = true).
  { apply existsb_exists. exists k. split; [exact Hin | apply same_refl]. }
  congruence.
Qed.

Lemma keys_fold (rows acc : list (K * Z)) :
  let groups := fold_left (fun acc row => add_to same (fst row) (snd row) acc) rows acc in
  (NoDup (map fst acc) -> NoDup (map fst groups))
  /\ (forall k, In k (map fst groups) <-> In k (map fst acc) \/ In k (map fst rows)).
Proof using same_eq.
  clear collate_le server_run str_of_datetime.
  revert acc; induction rows as [|[k0 v0] rows IH]; intros acc; cbn [fold_left map fst snd].
  - split; [auto|]. intros k. cbn [In]. tauto.
  - destruct (IH (add_to same k0 v0 acc)) as [Hnodup Hin]. split.
    + intros H. apply Hnodup. now apply keys_add_to_nodup.
    + intros k. rewrite Hin, keys_add_to_in. cbn [In]. intuition.
Qed.

Lemma total_add_to (k : K) (v : Z) (acc : list (K * Z)) :
  sum_Z (map snd (add_to same k v acc)) = (sum_Z (map snd acc) + v)%Z.
Proof using Type.
  induction acc as [|[k0 t0] acc IH]; cbn [add_to map snd]; [unfold sum_Z; cbn; lia|].
  destruct (same k k0); cbn [map snd]; unfold sum_Z in *; cbn [fold_right]; lia.
Qed.

Lemma total_fold (rows acc : list (K * Z)) :
  sum_Z (map snd (fold_left (fun acc row => add_to same (fst row) (snd row) acc) rows acc))
  = (sum_Z (map snd acc) + sum_Z (map snd rows))%Z.
Proof using Type.
  revert acc; induction rows as [|[k0 v0] rows IH]; intros acc; cbn [fold_left map snd fst].
  - unfold sum_Z. cbn. lia.
  - rewrite IH, total_add_to. unfold sum_Z. cbn [fold_right]. lia.
Qed.

Lemma amount_of_in (k : K) (t : Z) (acc : list (K * Z)) :
  NoDup (map fst acc) -> In (k, t) acc -> amount_of same k acc = t.
Proof using same_eq.
  induction acc as [|[k0 t0] acc IH]; [intros _ []|].
  cbn [map fst amount_of]. intros Hnd [H|H].
  - injection H as -> ->. now rewrite same_refl.
  - inversion Hnd as [|? ? Hk0 Hrest]; subst.
    destruct (same k k0) eqn:E; [|now apply IH].
    apply same_eq in E. subst k0. exfalso. apply Hk0.
    apply in_map_iff. now exists (k, t).
Qed.

Lemma in_amount_of (k : K) (acc : list (K * Z)) :
  In k (map fst acc) -> In (k, amount_of same k acc) acc.
Proof using same_eq.
  induction acc as [|[k0 t0] acc IH]; [intros []|].
  cbn [map fst amount_of]. destruct (same k k0) eqn:E.
  - apply same_eq in E. subst k0. intros _. now left.
  - intros [H|H]; [subst k0; rewrite same_refl in E; discriminate|].
    right. now apply IH.
Qed.

(** A report by key: one line for each key of the rows, holding the sum of
    the values of that key, lines in descending order of their sums. *)
Lemma grouped_report (rows : list (K * Z)) :
  let report := sort_by by_revenue_desc (group_sum same rows) in
  NoDup (map fst report)
  /\ (forall k t, In (k, t) report <-> In k (map fst rows) /\ t = paid_for same k rows)
  /\ chain by_revenue_desc report
  /\ sum_Z (map snd report) = sum_Z (map snd rows).
Proof using same_eq.
  intros report. subst report.
  pose proof (sort_by_perm (@by_revenue_desc K) (group_sum same rows)) as Hperm.
  destruct (keys_fold rows []) as [Hnodup Hkeys]. cbv zeta in Hnodup, Hkeys.
  fold (group_sum same rows) in Hnodup, Hkeys.
  specialize (Hnodup (NoDup_nil K)).
  assert (Hamount : forall k, amount_of same k (group_sum same rows) = paid_for same k rows).
  { intros k. unfold group_sum. rewrite amount_of_fold. cbn [amount_of]. lia. }
  split; [|split; [|split]].
  - apply (Permutation_NoDup (Permutation_map fst (Permutation_sym Hperm)) Hnodup).
  - intros k t. split.
    + intros Hin. apply (Permutation_in _ Hperm) in Hin.
      split.
      * assert (Hk : In k (map fst (group_sum same rows)))
          by (apply in_map_iff; now exists (k, t)).
        apply Hkeys in Hk. destruct Hk as [[]|Hk]. exact Hk.
      * rewrite <- Hamount. symmetry. now apply amount_of_in.
    + intros [Hk ->]. apply (Permutation_in _ (Permutation_sym Hperm)).
      rewrite <- Hamount. apply in_amount_of. apply Hkeys. now right.
  - apply chain_sort. intros a b. unfold by_revenue_desc.
    destruct (Z.leb_spec (snd b) (snd a)); [now left | right; apply Z.leb_le; lia].
  - rewrite (sum_Z_perm _ _ (Permutation_map snd Hperm)).
    unfold group_sum. rewrite total_fold. unfold sum_Z. cbn. lia.
Qed.

End Grouping.

(** ** Reports *)

Lemma analyze_revenue_outcome (by_category : bool) (w : world) :
  server_up w = true ->
  fst (analyze_revenue by_category w)
  = if by_category then select_revenue_by_category (committed w)
    else select_revenue_by_store (committed w).
Proof.
  intros Hup. unfold analyze_revenue, select_revenue_by_category, select_revenue_by_store.
  run_driver. rewrite Hup. destruct by_category; reflexivity.
Qed.

Lemma report_rows {K : Type} (same : K -> K -> bool) (mk : K -> Z -> revenue_row)
    (payments : list (K * Z)) :
  (forall a b, same a b = true <-> a = b) ->
  (forall k t, revenue_of (mk k t) = t) ->
  (forall k t k' t', mk k t = mk k' t' -> k = k' /\ t = t') ->
  let rows := map (fun kv => mk (fst kv) (snd kv))
                (sort_by by_revenue_desc (group_sum same payments)) in
  chain highest_first rows
  /\ NoDup rows
  /\ (forall row, In row rows <->
        exists k, In k (map fst payments) /\ row = mk k (paid_for same k payments))
  /\ sum_Z (map revenue_of rows) = sum_Z (map snd payments).
Proof.
  clear collate_le server_run str_of_datetime.
  intros Hsame Hrev Hinj rows. subst rows.
  destruct (grouped_report same Hsame payments) as (Hnodup & Hin & Hchain & Hsum).
  set (report := sort_by by_revenue_desc (group_sum same payments)) in *.
  split; [|split; [|split]].
  - apply chain_map. clear -Hchain Hrev.
    induction report as [|a l IH]; [exact I|]. destruct Hchain as [Hhead Htail].
    split; [|now apply IH]. destruct l as [|b l]; [exact I|].
    unfold highest_first. rewrite !Hrev. exact Hhead.
  - apply NoDup_map_inv in Hnodup. clear -Hnodup Hinj.
    induction report as [|a l IH]; [constructor|].
    inversion Hnodup as [|? ? Ha Hl]; subst. cbn [map]. constructor; [|now apply IH].
    intros H. apply in_map_iff in H as (b & Hb & Hbl).
    apply Hinj in Hb as [H1 H2]. apply Ha.
    destruct a, b. cbn in H1, H2. now subst.
  - intros row. rewrite in_map_iff. split.
    + intros ([k t] & <- & Hkt). apply Hin in Hkt as [Hk ->]. now exists k.
    + intros (k & Hk & ->). exists (k, paid_for same k payments).
      split; [reflexivity|]. now apply Hin.
  - rewrite <- Hsum, map_map. f_equal. apply map_ext. intros [k t]. apply Hrev.
Qed.

(** X15.  On a reachable server [analyze_revenue] by category returns one
    row for each category name that a payment reaches through rental,
    inventory and film category, holding the sum of the amounts of those
    payments; the rows come in descending order of revenue and their
    revenues add up to the sum of all the joined amounts. *)
Theorem analyze_revenue_by_category (w : world) :
  server_up w = true ->
  exists rows,
    fst (analyze_revenue true w) = Returned rows
    /\ chain highest_first rows
    /\ NoDup rows
    /\ (forall row, In row rows <->
          exists name, In name (map fst (category_payments (committed w)))
                       /\ row = CategoryRevenue name
                                  (paid_for String.eqb name (category_payments (committed w))))
    /\ sum_Z (map revenue_of rows) = sum_Z (map snd (category_payments (committed w))).
Proof.
  intros Hup. rewrite (analyze_revenue_outcome true w Hup).
  unfold select_revenue_by_category. eexists. split; [reflexivity|].
  apply (report_rows String.eqb CategoryRevenue).
  - apply String.eqb_eq.
  - reflexivity.
  - intros k t k' t' [= -> ->]. now split.
Qed.

(** X16.  On a reachable server [analyze_revenue] by store returns one row
    for each store with a staff member who took a payment, holding the sum
    of the amounts taken by the staff of that store; the rows come in
    descending order of revenue and their revenues add up to the sum of all
    the joined amounts. *)
Theorem analyze_revenue_by_store (w : world) :
  server_up w = true ->
  exists rows,
    fst (analyze_revenue false w) = Returned rows
    /\ chain highest_first rows
    /\ NoDup rows
    /\ (forall row, In row rows <->
          exists store, In store (map fst (store_payments (committed w)))
                        /\ row = StoreRevenue store
                                   (paid_for Z.eqb store (store_payments (committed w))))
    /\ sum_Z (map revenue_of rows) = sum_Z (map snd (store_payments (committed w))).
Proof.
  intros Hup. rewrite (analyze_revenue_outcome false w Hup).
  unfold select_revenue_by_store. eexists. split; [reflexivity|].
  apply (report_rows Z.eqb StoreRevenue).
  - apply Z.eqb_eq.
  - reflexivity.
  - intros k t k' t' [= -> ->]. now split.
Qed.

(** ** Histories *)

Lemma history_join_iff (customer_id : Z) (d : database) (h : history) :
  In h (history_join customer_id d) <->
  exists r i f,
    In r (rental d) /\ r_customer_id r = customer_id
    /\ In i (inventory d) /\ r_inventory_id r = i_inventory_id i
    /\ In f (film d) /\ i_film_id i = f_film_id f
    /\ ((h = history_row r f None
         /\ forall p, In p (payment d) -> p_rental_id p <> r_rental_id r)
        \/ exists p, In p (payment d) /\ p_rental_id p = r_rental_id r
                     /\ h = history_row r f (Some (p_amount p))).
Proof.
  clear collate_le server_run str_of_datetime.
  unfold history_join. rewrite in_flat_map. split.
  - intros (r & Hr & H). apply filter_In in Hr as [Hr Hc]. apply Z.eqb_eq in Hc.
    apply in_flat_map in H as (i & Hi & H).
    destruct (r_inventory_id r =? i_inventory_id i)%Z eqn:E1; [|contradiction].
    apply in_flat_map in H as (f & Hf & H).
    destruct (i_film_id i =? f_film_id f)%Z eqn:E2; [|contradiction].
    apply Z.eqb_eq in E1, E2. exists r, i, f. repeat (split; [assumption|]).
    destruct (filter _ (payment d)) as [|p0 paid] eqn:Epaid.
    + destruct H as [<-|[]]. left. split; [reflexivity|].
      intros p Hp Hid.
      assert (Hin : In p (filter (fun p => (r_rental_id r =? p_rental_id p)%Z) (payment d))).
      { apply filter_In. split; [exact Hp|]. apply Z.eqb_eq. now symmetry. }
      rewrite Epaid in Hin. exact Hin.
    + right. apply in_map_iff in H as (p & <- & Hp). rewrite <- Epaid in Hp.
      apply filter_In in Hp as [Hp Hid]. apply Z.eqb_eq in Hid.
      exists p. repeat split; [exact Hp | now symmetry].
  - intros (r & i & f & Hr & Hc & Hi & E1 & Hf & E2 & H).
    exists r. split; [apply filter_In; split; [exact Hr | now apply Z.eqb_eq]|].
    apply in_flat_map. exists i. split; [exact Hi|].
    apply Z.eqb_eq in E1. rewrite E1.
    apply in_flat_map. exists f. split; [exact Hf|].
    apply Z.eqb_eq in E2. rewrite E2.
    destruct H as [[-> Hnone] | (p & Hp & Hid & ->)].
    + destruct (filter _ (payment d)) as [|p0 paid] eqn:Epaid; [now left|].
      exfalso. assert (Hin : In p0 (p0 :: paid)) by now left.
      rewrite <- Epaid in Hin. apply filter_In in Hin as [Hp0 Hid].
      apply Z.eqb_eq in Hid. apply (Hnone p0 Hp0). now symmetry.
    + assert (Hin : In p (filter (fun p => (r_rental_id r =? p_rental_id p)%Z) (payment d))).
      { apply filter_In. split; [exact Hp|]. apply Z.eqb_eq. now symmetry. }
      destruct (filter _ (payment d)) as [|p0 paid]; [contradiction|].
      apply in_map_iff. now exists p.
Qed.

(** X17.  On a reachable server, with a limit that is not negative and fits
    a signed 64-bit integer, [get_customer_history] returns at most [limit]
    rows, latest rental first; each row is a rental of that customer with
    the title of the film of its item, and carries either the amount of a
    payment made for the rental or no amount when the rental has no
    payment. *)
Theorem get_customer_history_rows (customer_id limit : Z) (w : world) :
  server_up w = true -> (0 <= limit < 2 ^ 63)%Z ->
  exists rows,
    fst (get_customer_history customer_id limit w) = Returned rows
    /\ (Z.of_nat (length rows) <= limit)%Z
    /\ chain latest_first rows
    /\ forall h, In h rows ->
         exists r i f,
           In r (rental (committed w)) /\ r_customer_id r = customer_id
           /\ In i (inventory (committed w)) /\ r_inventory_id r = i_inventory_id i
           /\ In f (film (committed w)) /\ i_film_id i = f_film_id f
           /\ ((h = history_row r f None
                /\ forall p, In p (payment (committed w)) -> p_rental_id p <> r_rental_id r)
               \/ exists p, In p (payment (committed w)) /\ p_rental_id p = r_rental_id r
                            /\ h = history_row r f (Some (p_amount p))).
Proof.
  intros Hup Hlimit. rewrite (get_customer_history_outcome _ _ _ Hup).
  unfold select_history.
  rewrite limit_rows_in_range by lia.
  eexists. split; [reflexivity|]. split; [|split].
  - rewrite length_firstn. lia.
  - apply chain_firstn, chain_sort. intros a b. unfold latest_first.
    destruct (Z.leb_spec (h_rental_date b) (h_rental_date a));
      [now left | right; apply Z.leb_le; lia].
  - intros h Hh. apply in_firstn in Hh.
    apply (Permutation_in _ (sort_by_perm _ _)) in Hh.
    now apply history_join_iff.
Qed.

Lemma select_history_lists (customer_id limit : Z) (d : database)
    (r : rental_row) (i : inventory_row) (f : film_row) :
  (Z.of_nat (length (history_join customer_id d)) <= limit < 2 ^ 63)%Z ->
  In r (rental d) -> r_customer_id r = customer_id ->
  In i (inventory d) -> r_inventory_id r = i_inventory_id i ->
  In f (film d) -> i_film_id i = f_film_id f ->
  exists rows,
    select_history customer_id limit d = Returned rows
    /\ (exists amount, In (history_row r f amount) rows)
    /\ ((forall p, In p (payment d) -> p_rental_id p <> r_rental_id r) ->
        In (history_row r f None) rows).
Proof.
  clear collate_le server_run str_of_datetime.
  intros Hlimit Hr Hc Hi E1 Hf E2.
  unfold select_history.
  rewrite limit_rows_in_range by lia.
  eexists. split; [reflexivity|].
  rewrite firstn_all2
    by (rewrite (Permutation_length (sort_by_perm _ _)); lia).
  assert (Hrow : forall amount,
             In (history_row r f amount) (history_join customer_id d) ->
             In (history_row r f amount)
                (sort_by (fun a b => (h_rental_date b <=? h_rental_date a)%Z)
                   (history_join customer_id d))).
  { intros amount. apply Permutation_in, Permutation_sym, sort_by_perm. }
  assert (Hnone : (forall p, In p (payment d) -> p_rental_id p <> r_rental_id r) ->
                  In (history_row r f None) (history_join customer_id d)).
  { intros Hno. apply history_join_iff. exists r, i, f.
    repeat (split; [assumption|]). left. now split. }
  split.
  - destruct (filter (fun p => (p_rental_id p =? r_rental_id r)%Z) (payment d))
      as [|p paid] eqn:Epaid.
    + exists None. apply Hrow, Hnone. intros p Hp Hid.
      assert (Hin : In p (filter (fun p => (p_rental_id p =? r_rental_id r)%Z) (payment d)))
        by (apply filter_In; split; [exact Hp | now apply Z.eqb_eq]).
      rewrite Epaid in Hin. exact Hin.
    + assert (Hin : In p (p :: paid)) by now left.
      rewrite <- Epaid in Hin. apply filter_In in Hin as [Hp Hid]. apply Z.eqb_eq in Hid.
      exists (Some (p_amount p)). apply Hrow, history_join_iff. exists r, i, f.
      repeat (split; [assumption|]). right. now exists p.
  - intros Hno. now apply Hrow, Hnone.
Qed.

(** X18.  When the limit fits a signed 64-bit integer and is at least the
    number of rows of the history of a customer, no rental is left out: each
    rental of the customer whose item and film are on file is in the result
    of [get_customer_history], with no amount if nothing was paid for it. *)
Theorem get_customer_history_complete (customer_id limit : Z) (w : world)
    (r : rental_row) (i : inventory_row) (f : film_row) :
  server_up w = true ->
  (Z.of_nat (length (history_join customer_id (committed w))) <= limit < 2 ^ 63)%Z ->
  In r (rental (committed w)) -> r_customer_id r = customer_id ->
  In i (inventory (committed w)) -> r_inventory_id r = i_inventory_id i ->
  In f (film (committed w)) -> i_film_id i = f_film_id f ->
  exists rows,
    fst (get_customer_history customer_id limit w) = Returned rows
    /\ (exists amount, In (history_row r f amount) rows)
    /\ ((forall p, In p (payment (committed w)) -> p_rental_id p <> r_rental_id r) ->
        In (history_row r f None) rows).
Proof.
  intros Hup Hlimit Hr Hc Hi E1 Hf E2. rewrite (get_customer_history_outcome _ _ _ Hup).
  now apply (select_history_lists customer_id limit (committed w) r i f).
Qed.

(** ** From renting to the history and back *)

(** X22.  When the item has no open rental and the rental table admits the
    new row, [rent_movie] goes through, and for an item that is on file with
    its film the new rental is in the history of the customer right away
    (for a limit that covers the history and fits a signed 64-bit integer):
    identifier as returned, dated [NOW()], no return date, title of the
    film. *)
Theorem rented_movie_in_history (customer_id inventory_id' staff_id limit : Z) (w : world)
    (i : inventory_row) (f : film_row) :
  server_up w = true ->
  has_open_rental inventory_id' (committed w) = false ->
  admits (new_rental inventory_id' customer_id staff_id (clock w) (committed w))
    (committed w) = true ->
  In i (inventory (committed w)) -> i_inventory_id i = inventory_id' ->
  In f (film (committed w)) -> i_film_id i = f_film_id f ->
  let rental_id := (rental_id_seq (committed w) + 1)%Z in
  let w1 := snd (rent_movie customer_id inventory_id' staff_id w) in
  (Z.of_nat (length (history_join customer_id (committed w1))) <= limit < 2 ^ 63)%Z ->
  fst (rent_movie customer_id inventory_id' staff_id w)
  = Returned (successfully_rented rental_id)
  /\ exists rows amount,
       fst (get_customer_history customer_id limit w1) = Returned rows
       /\ In {| h_rental_id := rental_id; h_rental_date := clock w;
                h_return_date := None; h_title := f_title f; h_amount := amount |} rows.
Proof.
  intros Hup Hfree Hadmits Hi Hid Hf Hfilm rental_id w1 Hlimit. subst rental_id w1.
  destruct (rent_movie_run customer_id inventory_id' staff_id w Hup)
    as (Hmsg & Hdb & Hup' & _).
  rewrite Hfree, Hadmits in Hmsg, Hdb. split; [exact Hmsg|]. rewrite Hdb in Hlimit.
  rewrite (get_customer_history_outcome _ _ _ Hup'), Hdb.
  set (new := new_rental inventory_id' customer_id staff_id (clock w) (committed w)).
  destruct (select_history_lists customer_id limit
              (rented customer_id inventory_id' staff_id (clock w) (committed w)) new i f)
    as (rows & Hret & (amount & Hin) & _); try assumption; try reflexivity.
  - unfold rented, insert_rental, new_view. rewrite Hadmits. cbn [rental with_rental].
    apply in_or_app. right. now left.
  - unfold rented, insert_rental, new_view. rewrite Hadmits. exact Hi.
  - now symmetry.
  - unfold rented, insert_rental, new_view. rewrite Hadmits. exact Hf.
  - exists rows, amount. split; [exact Hret | exact Hin].
Qed.

Lemma rental_with_rented (customer_id inventory_id staff_id now : Z) (d : database) :
  admits (new_rental inventory_id customer_id staff_id now d) d = true ->
  (forall r, In r (rental d) -> r_rental_id r <> (rental_id_seq d + 1)%Z) ->
  rental_with (rental_id_seq d + 1) (rented customer_id inventory_id staff_id now d)
  = Some (new_rental inventory_id customer_id staff_id now d).
Proof.
  intros Hadmits.
  unfold rental_with, rented, insert_rental, new_view. rewrite Hadmits.
  cbn [rental with_rental]. unfold new_rental.
  induction (rental d) as [|r rows IH]; intros Hfresh.
  - cbn. now rewrite Z.eqb_refl.
  - cbn [app find]. destruct (r_rental_id r =? rental_id_seq d + 1)%Z eqn:E.
    + apply Z.eqb_eq in E. exfalso. apply (Hfresh r); [now left | exact E].
    + apply IH. intros r' Hr'. apply Hfresh. now right.
Qed.

(** X23.  When the item has no open rental, the rental table admits the new
    row and no older rental carries the identifier drawn, [rent_movie] goes
    through, [return_movie] with the identifier it returned goes through
    next, and the item is left without open rental, as before the two
    calls. *)
Theorem rent_movie_then_return_movie (customer_id inventory_id staff_id : Z) (w : world) :
  server_up w = true ->
  has_open_rental inventory_id (committed w) = false ->
  admits (new_rental inventory_id customer_id staff_id (clock w) (committed w))
    (committed w) = true ->
  (forall r, In r (rental (committed w)) ->
             r_rental_id r <> (rental_id_seq (committed w) + 1)%Z) ->
  let rental_id := (rental_id_seq (committed w) + 1)%Z in
  let w1 := snd (rent_movie customer_id inventory_id staff_id w) in
  fst (rent_movie customer_id inventory_id staff_id w)
  = Returned (successfully_rented rental_id)
  /\ fst (return_movie rental_id w1) = Returned (successfully_returned rental_id)
  /\ has_open_rental inventory_id (committed (snd (return_movie rental_id w1))) = false.
Proof.
  intros Hup Hfree Hadmits Hfresh rental_id w1. subst rental_id w1.
  destruct (rent_movie_run customer_id inventory_id staff_id w Hup)
    as (Hret & Hdb & Hup' & Hclock).
  rewrite Hfree, Hadmits in Hret, Hdb. split; [exact Hret|].
  pose proof (rental_with_rented customer_id inventory_id staff_id (clock w) (committed w)
                Hadmits Hfresh) as Hrow.
  rewrite <- Hdb in Hrow.
  destruct (return_movie_run _ _ _ Hup' Hrow eq_refl) as (Hret' & Hdb' & _).
  split; [exact Hret'|]. rewrite Hdb', Hdb.
  match goal with |- ?open = false => destruct open eqn:E; [|reflexivity] end.
  exfalso. apply has_open_rental_iff in E as (r & Hr & Hitem & Hnull).
  unfold returned, update_return_date, new_view, rented, insert_rental in Hr.
  rewrite Hadmits in Hr. cbn [rental with_rental new_view] in Hr.
  apply in_map_iff in Hr as (r' & Hr' & Hin).
  destruct (r_rental_id r' =? rental_id_seq (committed w) + 1)%Z eqn:Eid.
  - subst r. discriminate Hnull.
  - subst r'. apply in_app_or in Hin as [Hin|[<-|[]]].
    + assert (Hopen : has_open_rental inventory_id (committed w) = true)
        by (apply has_open_rental_iff; exists r; split; [exact Hin | now split]).
      congruence.
    + cbn in Eid. rewrite Z.eqb_refl in Eid. discriminate.
Qed.

(** ** Catalog lookups *)

(** X19.  On a reachable server [list_tables] returns the names of the
    tables of the schema asked for, each as often as the catalog lists it
    and no other name, in ascending order for a collation that compares any
    two names. *)
Theorem list_tables_exact (schema : string) (w : world) :
  server_up w = true ->
  (forall a b, collate_le a b = true \/ collate_le b a = true) ->
  exists names,
    fst (list_tables schema w) = Returned names
    /\ chain collate_le names
    /\ Permutation names
         (map snd (filter (fun t => String.eqb (fst t) schema) (tables (committed w))))
    /\ forall name, In name names <-> In (schema, name) (tables (committed w)).
Proof.
  clear server_run str_of_datetime.
  intros Hup Htotal. unfold list_tables, select_tables. run_driver. rewrite Hup.
  cbn [fst snd view pending set_pending log set_live clock committed].
  eexists. split; [reflexivity|]. split; [|split].
  - now apply chain_sort.
  - apply sort_by_perm.
  - intros name. split.
    + intros H. apply (Permutation_in _ (sort_by_perm _ _)) in H.
      apply in_map_iff in H as ([s n] & <- & Hin). apply filter_In in Hin as [Hin Hs].
      cbn [fst snd] in *. apply String.eqb_eq in Hs. now subst s.
    + intros H. apply (Permutation_in _ (Permutation_sym (sort_by_perm _ _))).
      apply in_map_iff. exists (schema, name). split; [reflexivity|].
      apply filter_In. split; [exact H | apply String.eqb_refl].
Qed.

(** X20.  On a reachable server [describe_table] returns name, type and
    nullability of the columns the catalog lists for that table of that
    schema, each once for each listing and no other, in ascending order of
    their position. *)
Theorem describe_table_exact (table_name schema : string) (w : world) :
  server_up w = true ->
  exists cols,
    fst (describe_table table_name schema w) = Returned (map column_of cols)
    /\ chain (fun a b => (col_ordinal_position a <=? col_ordinal_position b)%Z) cols
    /\ Permutation cols
         (filter (fun c => String.eqb (col_table_schema c) schema
                           && String.eqb (col_table_name c) table_name)
            (columns (committed w)))
    /\ forall c, In c cols <->
                 In c (columns (committed w))
                 /\ col_table_schema c = schema /\ col_table_name c = table_name.
Proof.
  intros Hup. unfold describe_table, select_columns. run_driver. rewrite Hup.
  cbn [fst snd view pending set_pending log set_live clock committed].
  eexists. split; [reflexivity|]. split; [|split].
  - apply chain_sort. intros a b.
    destruct (Z.leb_spec (col_ordinal_position a) (col_ordinal_position b));
      [now left | right; apply Z.leb_le; lia].
  - apply sort_by_perm.
  - intros c. split.
    + intros H. apply (Permutation_in _ (sort_by_perm _ _)) in H.
      apply filter_In in H as [Hin Hc]. apply andb_true_iff in Hc as [Hs Ht].
      apply String.eqb_eq in Hs, Ht. auto.
    + intros (Hin & Hs & Ht). apply (Permutation_in _ (Permutation_sym (sort_by_perm _ _))).
      apply filter_In. split; [exact Hin|]. subst. now rewrite !String.eqb_refl.
Qed.

(** ** Transactions *)

Lemma with_connection_ends_transaction {A : Type} (body : M A) (w : world) :
  server_up w = true -> pending (snd (with_connection body w)) = None.
Proof.
  intros Hup. unfold with_connection, bind, get_connection. rewrite Hup.
  destruct (body _) as [[a|e] w']; reflexivity.
Qed.

(** X21.  On a reachable server no operation returns, or raises, with a
    transaction still in progress: leaving the connection block has
    committed or rolled back. *)
Theorem operations_end_transaction (w : world) :
  server_up w = true ->
  (forall schema, pending (snd (list_tables schema w)) = None)
  /\ (forall table_name schema, pending (snd (describe_table table_name schema w)) = None)
  /\ (forall query limit, accepted query ->
        pending (snd (run_select_query query limit w)) = None)
  /\ (forall search_term genre' year limit,
        pending (snd (search_movies search_term genre' year limit w)) = None)
  /\ (forall customer_id limit,
        pending (snd (get_customer_history customer_id limit w)) = None)
  /\ (forall customer_id inventory_id staff_id,
        pending (snd (rent_movie customer_id inventory_id staff_id w)) = None)
  /\ (forall rental_id, pending (snd (return_movie rental_id w)) = None)
  /\ (forall film_id, pending (snd (get_available_inventory film_id w)) = None)
  /\ (forall by_category, pending (snd (analyze_revenue by_category w)) = None).
Proof.
  intros Hup. repeat match goal with |- _ /\ _ => split end; intros;
    try (apply with_connection_ends_transaction; exact Hup).
  - match goal with H : accepted _ |- _ => apply guard_test in H; rename H into Hok end.
    unfold run_select_query. rewrite Hok. cbn [negb].
    now apply with_connection_ends_transaction.
  - unfold search_movies.
    destruct (truthy_str search_term), (truthy_str genre'), (truthy_int year);
      now apply with_connection_ends_transaction.
Qed.

End Catalog.

(** ** The theorems at work on the sample database *)

Lemma run_select_query_rejects_witness :
  ~ accepted " drop table film"
  /\ run_select_query sample_server " drop table film" 50 sample_world
     = (Raised (ValueError "Only SELECT queries are allowed"), sample_world).
Proof.
  assert (H : ~ accepted " drop table film").
  { intros H. apply guard_test in H. vm_compute in H. discriminate H. }
  split; [exact H|].
  exact (run_select_query_rejects sample_server " drop table film" 50 sample_world H).
Defined.

Lemma run_select_query_limited_witness :
  accepted "  Select title from film;;"
  /\ PyStr.rstrip_by PyStr.isspace "  Select title from film;;" = "  Select title from film;;"
  /\ server_up sample_world = true
  /\ exists base semis closing,
       "  Select title from film;;" = base ++ semis
       /\ journal (snd (run_select_query sample_server "  Select title from film;;" 50
                          sample_world))
          = [EvConnect; EvCursor; EvExecute (base ++ " LIMIT 50") []; EvCursorClose; closing].
Proof.
  assert (Hok : accepted "  Select title from film;;") by (apply guard_test; reflexivity).
  split; [exact Hok|]. split; [reflexivity|]. split; [reflexivity|].
  destruct (run_select_query_limited sample_server "  Select title from film;;" 50
              sample_world Hok eq_refl eq_refl)
    as (base & semis & closing & Hq & _ & _ & Hj & _).
  exists base, semis, closing. split; [exact Hq | exact Hj].
Defined.

Lemma rent_movie_check_then_insert_witness :
  server_up sample_world = true
  /\ (exists msg,
        fst (rent_movie sample_admits sample_draws 1 10 1 sample_world) = Returned msg
        /\ PyStr.contains "already rented out" msg = true)
  /\ (exists rental_id digits,
        fst (rent_movie sample_admits sample_draws 1 12 1 sample_world)
        = Returned ("Successfully rented. Rental ID: " ++ digits)
        /\ PyStr.int_of_str digits = Some rental_id
        /\ rental (committed (snd (rent_movie sample_admits sample_draws 1 12 1
                                     sample_world)))
           = (rental sample_db
              ++ [{| r_rental_id := rental_id; r_rental_date := 1000;
                     r_inventory_id := 12; r_customer_id := 1; r_staff_id := 1;
                     r_return_date := None |}])%list)
  /\ fst (rent_movie sample_admits sample_draws 1 2147483648 1 sample_world)
     = Raised DatabaseError.
Proof.
  split; [reflexivity|]. split; [|split].
  - destruct (rent_movie_check_then_insert sample_admits sample_draws 1 10 1 sample_world
                eq_refl) as (Hbusy & _).
    destruct Hbusy as (msg & Hret & Hmsg & _).
    + apply find_open_rental. vm_compute. discriminate.
    + exists msg. split; assumption.
  - destruct (rent_movie_check_then_insert sample_admits sample_draws 1 12 1 sample_world
                eq_refl) as (_ & Hfree & _).
    destruct Hfree as (rental_id & digits & Hret & Hread & Hrows & _).
    + intros H. apply find_open_rental in H. vm_compute in H. now apply H.
    + reflexivity.
    + exists rental_id, digits. split; [exact Hret|]. split; [exact Hread | exact Hrows].
  - destruct (rent_movie_check_then_insert sample_admits sample_draws 1 2147483648 1
                sample_world eq_refl) as (_ & _ & Hrefused).
    destruct Hrefused as (Hret & _).
    + intros H. apply find_open_rental in H. vm_compute in H. now apply H.
    + reflexivity.
    + exact Hret.
Defined.

Lemma return_movie_cases_witness :
  server_up sample_world = true
  /\ fst (return_movie sample_str_of_datetime 7 sample_world)
     = Returned "Successfully returned rental 7."
  /\ exists r',
       In r' (rental (committed (snd (return_movie sample_str_of_datetime 7 sample_world))))
       /\ r_rental_id r' = 7%Z /\ r_return_date r' = Some 1000%Z.
Proof.
  split; [reflexivity|].
  pose proof (return_movie_cases sample_str_of_datetime 7 sample_world eq_refl) as H.
  cbv zeta in H.
  change (rental_with 7 (committed sample_world))
    with (Some {| r_rental_id := 7; r_rental_date := 600; r_inventory_id := 10;
                  r_customer_id := 5; r_staff_id := 2; r_return_date := None |}) in H.
  cbv iota beta in H. cbn [r_return_date] in H.
  destruct H as (Hret & _ & _ & Hrow & _). split; [exact Hret | exact Hrow].
Defined.

Lemma return_movie_frame_witness :
  server_up sample_world = true
  /\ rental_with 7 (committed sample_world)
     = Some {| r_rental_id := 7; r_rental_date := 600; r_inventory_id := 10;
               r_customer_id := 5; r_staff_id := 2; r_return_date := None |}
  /\ length (rental (committed (snd (return_movie sample_str_of_datetime 7 sample_world))))
     = length (rental (committed sample_world)).
Proof.
  split; [reflexivity|]. split; [reflexivity|].
  destruct (return_movie_frame sample_str_of_datetime 7 sample_world _
              eq_refl eq_refl eq_refl) as (Hlen & _).
  exact Hlen.
Defined.

Lemma get_available_inventory_sound_witness :
  server_up sample_world = true
  /\ exists rows,
       fst (get_available_inventory 1 sample_world) = Returned rows
       /\ forall a, In a rows ->
            forall r, In r (rental (committed sample_world)) ->
                      r_inventory_id r = inventory_id a -> r_return_date r <> None.
Proof.
  split; [reflexivity|].
  destruct (get_available_inventory_sound 1 sample_world eq_refl) as (rows & Hret & Hrows).
  exists rows. split; [exact Hret|]. intros a Ha. exact (proj2 (Hrows a Ha)).
Defined.


Lemma search_movies_unfiltered_witness :
  server_up sample_world = true /\ (0 <= 2 < 2 ^ 63)%Z
  /\ (forall a b, String.leb a b = true \/ String.leb b a = true)
  /\ exists rows rest,
       fst (search_movies sample_fold String.leb None None None 2 sample_world)
       = Returned rows
       /\ ascending String.leb (rows ++ rest)%list
       /\ Permutation (rows ++ rest)%list (map movie_of (film_join (committed sample_world)))
       /\ length rows = 2.
Proof.
  assert (Hlimit : (0 <= 2 < 2 ^ 63)%Z) by (split; [discriminate | reflexivity]).
  split; [reflexivity|]. split; [exact Hlimit|]. split; [exact String.leb_total|].
  destruct (search_movies_unfiltered sample_fold String.leb 2 sample_world eq_refl Hlimit
              String.leb_total)
    as (rows & rest & Hret & Hasc & Hperm & Hlen & _).
  exists rows, rest. split; [exact Hret|]. split; [exact Hasc|]. split; [exact Hperm|].
  exact Hlen.
Defined.

Lemma operations_leave_connection_open_witness :
  server_up sample_world = true
  /\ fst (search_movies sample_fold String.leb None None None (-1) sample_world)
     = Raised DatabaseError
  /\ live (snd (search_movies sample_fold String.leb None None None (-1) sample_world))
     = S (live sample_world).
Proof.
  split; [reflexivity|]. split; [reflexivity|].
  destruct (operations_leave_connection_open sample_fold String.leb sample_server
              sample_admits sample_draws sample_str_of_datetime sample_world eq_refl)
    as (_ & _ & _ & Hsearch & _).
  destruct (Hsearch None None None (-1)%Z) as (Hlive & _).
  exact Hlive.
Defined.

(** ** Where the code departs from the specification *)

(** C2 as the specification words it fails.  A semicolon followed by a blank stays in the
    statement executed, and a query that brings its own LIMIT clause is
    executed with two. *)
Lemma run_select_query_limit_counterexample :
  (accepted "select 1; "
   /\ journal (snd (run_select_query sample_server "select 1; " 50 sample_world))
      = [EvConnect; EvCursor; EvExecute "select 1;  LIMIT 50" []; EvCursorClose; EvCommit]
   /\ PyStr.contains ";" "select 1;  LIMIT 50" = true
   /\ ~ capped_once "select 1; " 50 "select 1;  LIMIT 50")
  /\ (accepted "select 1 LIMIT 50"
      /\ journal (snd (run_select_query sample_server "select 1 LIMIT 50" 50 sample_world))
         = [EvConnect; EvCursor; EvExecute "select 1 LIMIT 50 LIMIT 50" [];
            EvCursorClose; EvCommit]
      /\ PyStr.occurrences "LIMIT" "select 1 LIMIT 50 LIMIT 50" = 2
      /\ ~ capped_once "select 1 LIMIT 50" 50 "select 1 LIMIT 50 LIMIT 50").
Proof.
  split; (split; [apply guard_test; reflexivity|]); (split; [reflexivity|]);
    (split; [reflexivity|]);
    intros [Hstmt Hcount]; vm_compute in Hstmt, Hcount; discriminate.
Qed.

(** C3 as the specification words it fails.  No rental is open for the item
    2147483648, yet [rent_movie] inserts no row and returns no text: the
    column of the rental table does not take the number, and the error of
    the database is raised. *)
Lemma rent_movie_check_then_insert_counterexample :
  (~ exists r, In r (rental (committed sample_world)) /\ open_rental_of 2147483648 r)
  /\ fst (rent_movie sample_admits sample_draws 1 2147483648 1 sample_world)
     = Raised DatabaseError
  /\ rental (committed (snd (rent_movie sample_admits sample_draws 1 2147483648 1
                               sample_world)))
     = rental (committed sample_world).
Proof.
  split; [|split; reflexivity].
  intros (r & Hr & Hitem & _). cbn in Hr.
  destruct Hr as [<-|[<-|[]]]; discriminate Hitem.
Qed.


(** C7 as the specification words it fails.  With three films and a limit of twenty, the
    film without a category is not among the rows, and the film with two
    categories is there twice. *)
Lemma search_movies_unfiltered_counterexample :
  exists rows,
    fst (search_movies sample_fold String.leb None None None 20 sample_world)
    = Returned rows
    /\ map film_id rows = [1; 2; 2]%Z
    /\ map f_film_id (film (committed sample_world)) = [1; 2; 3]%Z
    /\ ~ In 3%Z (map film_id rows).
Proof.
  eexists. split; [vm_compute; reflexivity|].
  split; [reflexivity|]. split; [reflexivity|].
  cbn. intros [H|[H|[H|[]]]]; discriminate H.
Qed.

(** C8 at work.  [list_tables] on the schema public returns, and the
    connection it opened is gone with it, though the journal has no
    [close].  A search with a negative limit raises, and the connection it
    opened is still live then. *)
Example list_tables_leaves_connection :
  fst (list_tables String.leb "public" sample_world) = Returned ["film"; "rental"]
  /\ live (snd (list_tables String.leb "public" sample_world)) = 0
  /\ journal (snd (list_tables String.leb "public" sample_world))
     = [EvConnect; EvCursor; EvExecute sql_list_tables [VStr "public"];
        EvCursorClose; EvCommit]
  /\ fst (search_movies sample_fold String.leb None None None (-1) sample_world)
     = Raised DatabaseError
  /\ live (snd (search_movies sample_fold String.leb None None None (-1) sample_world)) = 1
  /\ journal (snd (search_movies sample_fold String.leb None None None (-1) sample_world))
     = [EvConnect; EvCursor;
        EvExecute (sql_search_movies ++ " ORDER BY f.title LIMIT %s") [VInt (-1)];
        EvCursorClose; EvRollback].
Proof. repeat split. Qed.

(** ** The further theorems at work on the sample database *)

Lemma run_select_query_passes_through_witness :
  accepted "select nothing" /\ server_up sample_world = true
  /\ fst (run_select_query sample_rejecting_server "select nothing" 50 sample_world)
     = Raised DatabaseError
  /\ committed (snd (run_select_query sample_rejecting_server "select nothing" 50
                       sample_world))
     = sample_db.
Proof.
  assert (Hok : accepted "select nothing") by (apply guard_test; reflexivity).
  split; [exact Hok|]. split; [reflexivity|].
  pose proof (run_select_query_passes_through sample_rejecting_server "select nothing" 50
                sample_world Hok eq_refl) as H.
  cbv zeta in H. unfold sample_rejecting_server in H. cbn [reply_of durable] in H.
  destruct H as (Hret & Hdb & _). split; [exact Hret | exact Hdb].
Defined.

Lemma unreachable_server_witness :
  server_up sample_world_down = false
  /\ rent_movie sample_admits sample_draws 1 12 1 sample_world_down
     = (Raised OperationalError, sample_world_down).
Proof.
  split; [reflexivity|].
  destruct (unreachable_server sample_fold String.leb sample_server sample_admits
              sample_draws sample_str_of_datetime sample_world_down eq_refl)
    as (_ & _ & _ & _ & _ & Hrent & _).
  exact (Hrent 1 12 1)%Z.
Defined.

Lemma sample_one_open_rental_per_item : one_open_rental_per_item (committed sample_world).
Proof.
  unfold one_open_rental_per_item. cbn.
  constructor; [intros [] | constructor].
Defined.

Lemma rentals_keep_one_open_rental_per_item_witness :
  one_open_rental_per_item (committed sample_world)
  /\ one_open_rental_per_item
       (committed (snd (rent_movie sample_admits sample_draws 1 12 1 sample_world))).
Proof.
  split; [exact sample_one_open_rental_per_item|].
  exact (proj1 (rentals_keep_one_open_rental_per_item sample_admits sample_draws
                  sample_str_of_datetime sample_world
                  sample_one_open_rental_per_item) 1 12 1)%Z.
Defined.

Lemma rent_movie_twice_witness :
  server_up sample_world = true
  /\ fst (rent_movie sample_admits sample_draws 1 12 1 sample_world)
     = Returned (successfully_rented 8)
  /\ fst (rent_movie sample_admits sample_draws 2 12 1
            (snd (rent_movie sample_admits sample_draws 1 12 1 sample_world)))
     = Returned (already_rented_out 12).
Proof.
  split; [reflexivity|]. split; [reflexivity|].
  exact (rent_movie_twice sample_admits sample_draws 1 12 1 2 1 sample_world _
           eq_refl eq_refl)%Z.
Defined.

Lemma rented_item_is_not_available_witness :
  server_up sample_world = true
  /\ fst (rent_movie sample_admits sample_draws 1 12 1 sample_world)
     = Returned (successfully_rented 8)
  /\ exists rows,
       fst (get_available_inventory 2
              (snd (rent_movie sample_admits sample_draws 1 12 1 sample_world)))
       = Returned rows
       /\ forall a, In a rows -> inventory_id a <> 12%Z.
Proof.
  split; [reflexivity|]. split; [reflexivity|].
  exact (rented_item_is_not_available sample_admits sample_draws 1 12 1 2 sample_world _
           eq_refl eq_refl)%Z.
Defined.

Lemma get_available_inventory_exact_witness :
  server_up sample_world = true
  /\ exists rows,
       fst (get_available_inventory 1 sample_world) = Returned rows
       /\ In {| inventory_id := 11; store_id := 2 |} rows.
Proof.
  split; [reflexivity|].
  destruct (get_available_inventory_exact 1 sample_world eq_refl) as (rows & Hret & Hrows).
  exists rows. split; [exact Hret|]. apply Hrows.
  exists {| i_inventory_id := 11; i_film_id := 1; i_store_id := 2 |}.
  split; [cbn; tauto|]. split; [reflexivity|]. split; [reflexivity|].
  intros (r & Hr & Hitem & Hnull). cbn in Hr.
  destruct Hr as [<-|[<-|[]]]; cbn in Hitem, Hnull; discriminate.
Defined.

Lemma return_movie_twice_witness :
  server_up sample_world = true
  /\ rental_with 7 (committed sample_world)
     = Some {| r_rental_id := 7; r_rental_date := 600; r_inventory_id := 10;
               r_customer_id := 5; r_staff_id := 2; r_return_date := None |}
  /\ fst (return_movie sample_str_of_datetime 7
            (snd (return_movie sample_str_of_datetime 7 sample_world)))
     = Returned ("Error: Rental ID " ++ PyStr.str_of_int 7
                 ++ " already returned on " ++ sample_str_of_datetime 1000 ++ ".").
Proof.
  split; [reflexivity|]. split; [reflexivity|].
  exact (proj1 (return_movie_twice sample_str_of_datetime 7 sample_world _
                  eq_refl eq_refl eq_refl)).
Defined.

Lemma returned_item_is_available_witness :
  server_up sample_world = true
  /\ exists rows,
       fst (get_available_inventory 1
              (snd (return_movie sample_str_of_datetime 7 sample_world))) = Returned rows
       /\ In {| inventory_id := 10; store_id := 1 |} rows.
Proof.
  split; [reflexivity|].
  apply (returned_item_is_available sample_str_of_datetime 7 sample_world
           {| r_rental_id := 7; r_rental_date := 600; r_inventory_id := 10;
              r_customer_id := 5; r_staff_id := 2; r_return_date := None |}
           {| i_inventory_id := 10; i_film_id := 1; i_store_id := 1 |});
    try reflexivity.
  - cbn. tauto.
  - intros r Hr [Hitem Hnull]. cbn in Hr.
    destruct Hr as [<-|[<-|[]]]; cbn in Hitem, Hnull; [discriminate | reflexivity].
Defined.

Lemma search_movies_ordered_and_capped_witness :
  server_up sample_world = true /\ (0 <= 2 < 2 ^ 63)%Z
  /\ exists rows,
       fst (search_movies sample_fold String.leb (Some "a") None None 2 sample_world)
       = Returned rows
       /\ ascending String.leb rows /\ (Z.of_nat (length rows) <= 2)%Z.
Proof.
  assert (Hlimit : (0 <= 2 < 2 ^ 63)%Z) by (split; [discriminate | reflexivity]).
  split; [reflexivity|]. split; [exact Hlimit|].
  exact (search_movies_ordered_and_capped sample_fold String.leb (Some "a") None None 2
           sample_world eq_refl Hlimit String.leb_total).
Defined.

Lemma search_movies_complete_witness :
  server_up sample_world = true
  /\ (Z.of_nat (length (matching sample_fold None (Some "sci") None (committed sample_world)))
      <= 20 < 2 ^ 63)%Z
  /\ exists rows,
       fst (search_movies sample_fold String.leb None (Some "sci") None 20 sample_world)
       = Returned rows
       /\ Permutation rows
            (map movie_of
               (matching sample_fold None (Some "sci") None (committed sample_world))).
Proof.
  assert (H : (Z.of_nat (length (matching sample_fold None (Some "sci") None
                                   (committed sample_world)))
               <= 20 < 2 ^ 63)%Z) by (split; [vm_compute; discriminate | reflexivity]).
  split; [reflexivity|]. split; [exact H|].
  exact (search_movies_complete sample_fold String.leb None (Some "sci") None 20
           sample_world eq_refl H).
Defined.

Lemma search_movies_percent_term_witness :
  all_chars is_percent "%%" = true /\ "%%" <> ""
  /\ fst (search_movies sample_fold String.leb (Some "%%") None None 20 sample_world)
     = fst (search_movies sample_fold String.leb None None None 20 sample_world).
Proof.
  assert (Hne : "%%" <> "") by discriminate.
  split; [reflexivity|]. split; [exact Hne|].
  exact (search_movies_percent_term sample_fold String.leb "%%" None None 20 sample_world
           eq_refl Hne).
Defined.

Lemma limit_edges_witness :
  server_up sample_world = true /\ (-1 < 0)%Z
  /\ fst (search_movies sample_fold String.leb None None None (-1) sample_world)
     = Raised DatabaseError
  /\ fst (get_customer_history 5 (-1) sample_world) = Raised DatabaseError.
Proof.
  split; [reflexivity|]. split; [reflexivity|].
  exact (proj1 (limit_edges sample_fold String.leb None None None 5 (-1) sample_world
                  eq_refl) eq_refl).
Defined.

Lemma analyze_revenue_by_category_witness :
  server_up sample_world = true
  /\ exists rows,
       fst (analyze_revenue true sample_world) = Returned rows
       /\ sum_Z (map revenue_of rows) = 299%Z.
Proof.
  split; [reflexivity|].
  destruct (analyze_revenue_by_category sample_world eq_refl)
    as (rows & Hret & _ & _ & _ & Hsum).
  exists rows. split; [exact Hret | exact Hsum].
Defined.

Lemma analyze_revenue_by_store_witness :
  server_up sample_world = true
  /\ exists rows,
       fst (analyze_revenue false sample_world) = Returned rows
       /\ sum_Z (map revenue_of rows) = 299%Z.
Proof.
  split; [reflexivity|].
  destruct (analyze_revenue_by_store sample_world eq_refl)
    as (rows & Hret & _ & _ & _ & Hsum).
  exists rows. split; [exact Hret | exact Hsum].
Defined.

Lemma get_customer_history_rows_witness :
  server_up sample_world = true /\ (0 <= 20 < 2 ^ 63)%Z
  /\ exists rows,
       fst (get_customer_history 5 20 sample_world) = Returned rows
       /\ (Z.of_nat (length rows) <= 20)%Z /\ chain latest_first rows.
Proof.
  assert (Hlimit : (0 <= 20 < 2 ^ 63)%Z) by (split; [discriminate | reflexivity]).
  split; [reflexivity|]. split; [exact Hlimit|].
  destruct (get_customer_history_rows 5 20 sample_world eq_refl Hlimit)
    as (rows & Hret & Hlen & Hchain & _).
  exists rows. split; [exact Hret|]. split; [exact Hlen | exact Hchain].
Defined.

Lemma get_customer_history_complete_witness :
  server_up sample_world = true
  /\ (Z.of_nat (length (history_join 5 (committed sample_world))) <= 20 < 2 ^ 63)%Z
  /\ exists rows,
       fst (get_customer_history 5 20 sample_world) = Returned rows
       /\ In {| h_rental_id := 7; h_rental_date := 600; h_return_date := None;
                h_title := "Alien"; h_amount := None |} rows.
Proof.
  assert (Hlimit : (Z.of_nat (length (history_join 5 (committed sample_world)))
                    <= 20 < 2 ^ 63)%Z)
    by (split; [vm_compute; discriminate | reflexivity]).
  split; [reflexivity|]. split; [exact Hlimit|].
  destruct (get_customer_history_complete 5 20 sample_world
              {| r_rental_id := 7; r_rental_date := 600; r_inventory_id := 10;
                 r_customer_id := 5; r_staff_id := 2; r_return_date := None |}
              {| i_inventory_id := 10; i_film_id := 1; i_store_id := 1 |}
              {| f_film_id := 1; f_title := "Alien";
                 f_description := "A crew meets a stowaway";
                 f_release_year := 2006; f_rental_rate := 299; f_rating := "R" |}
              eq_refl Hlimit)
    as (rows & Hret & _ & Hnone);
    try reflexivity; try (cbn; tauto).
  exists rows. split; [exact Hret|]. apply Hnone.
  intros p Hp. cbn in Hp. destruct Hp as [<-|[]]. discriminate.
Defined.

Lemma list_tables_exact_witness :
  server_up sample_world = true
  /\ (forall a b, String.leb a b = true \/ String.leb b a = true)
  /\ exists names,
       fst (list_tables String.leb "public" sample_world) = Returned names
       /\ In "film" names /\ ~ In "log" names.
Proof.
  split; [reflexivity|]. split; [exact String.leb_total|].
  destruct (list_tables_exact String.leb "public" sample_world eq_refl String.leb_total)
    as (names & Hret & _ & _ & Hin).
  exists names. split; [exact Hret|]. split.
  - apply Hin. cbn. tauto.
  - intros H. apply Hin in H. cbn in H.
    destruct H as [H|[H|[H|[]]]]; discriminate H.
Defined.

Lemma describe_table_exact_witness :
  server_up sample_world = true
  /\ exists cols,
       fst (describe_table "category" "public" sample_world) = Returned (map column_of cols)
       /\ length cols = 2.
Proof.
  split; [reflexivity|].
  destruct (describe_table_exact "category" "public" sample_world eq_refl)
    as (cols & Hret & _ & Hperm & _).
  exists cols. split; [exact Hret|]. exact (Permutation_length Hperm).
Defined.

Lemma operations_end_transaction_witness :
  server_up sample_world = true
  /\ pending (snd (rent_movie sample_admits sample_draws 1 12 1 sample_world)) = None.
Proof.
  split; [reflexivity|].
  destruct (operations_end_transaction sample_fold String.leb sample_server sample_admits
              sample_draws sample_str_of_datetime sample_world eq_refl)
    as (_ & _ & _ & _ & _ & Hrent & _).
  exact (Hrent 1 12 1)%Z.
Defined.

Lemma rented_movie_in_history_witness :
  server_up sample_world = true
  /\ has_open_rental 12 (committed sample_world) = false
  /\ sample_admits (new_rental 12 5 1 (clock sample_world) (committed sample_world))
       (committed sample_world) = true
  /\ fst (rent_movie sample_admits sample_draws 5 12 1 sample_world)
     = Returned (successfully_rented 8)
  /\ exists rows amount,
       fst (get_customer_history 5 20
              (snd (rent_movie sample_admits sample_draws 5 12 1 sample_world)))
       = Returned rows
       /\ In {| h_rental_id := 8; h_rental_date := 1000; h_return_date := None;
                h_title := "Brazil"; h_amount := amount |} rows.
Proof.
  split; [reflexivity|]. split; [reflexivity|]. split; [reflexivity|].
  apply (rented_movie_in_history sample_admits sample_draws 5 12 1 20 sample_world
           {| i_inventory_id := 12; i_film_id := 2; i_store_id := 1 |}
           {| f_film_id := 2; f_title := "Brazil"; f_description := "A clerk dreams";
              f_release_year := 1985; f_rental_rate := 99; f_rating := "R" |});
    try reflexivity; try (cbn; tauto).
  split; [vm_compute; discriminate | reflexivity].
Defined.

Lemma rent_movie_then_return_movie_witness :
  server_up sample_world = true
  /\ has_open_rental 12 (committed sample_world) = false
  /\ sample_admits (new_rental 12 1 1 (clock sample_world) (committed sample_world))
       (committed sample_world) = true
  /\ fst (rent_movie sample_admits sample_draws 1 12 1 sample_world)
     = Returned (successfully_rented 8)
  /\ fst (return_movie sample_str_of_datetime 8
            (snd (rent_movie sample_admits sample_draws 1 12 1 sample_world)))
     = Returned (successfully_returned 8).
Proof.
  split; [reflexivity|]. split; [reflexivity|]. split; [reflexivity|].
  refine ((fun H => conj (proj1 H) (proj1 (proj2 H)))
            (rent_movie_then_return_movie sample_admits sample_draws sample_str_of_datetime
               1 12 1 sample_world eq_refl eq_refl eq_refl _)).
  intros r Hr. cbn in Hr. destruct Hr as [<-|[<-|[]]]; discriminate.
Defined.
